(** * Signature Injection Engine (backend/server.js)

    A shallow embedding of the [SignatureInjectionEngine] class of
    [backend/server.js]: the coordinate normalizer, the data-URI parser,
    the per-type field renderer, the audit logger and the
    [injectFields] orchestration, followed by the properties of the
    specification that were checked against them.

    Conventions.
    - A JavaScript number is an IEEE 754 binary64 value: Rocq's primitive
      [float].  The four lines of [normalizeCoordinates] are written once,
      over an arithmetic interface, and read at [float] (what Node runs)
      and at [Q] (the formulas as real-number expressions).
    - A value that comes out of [JSON.parse] is a [JSValue]; a property
      that is missing from an object reads as [JSUndefined].
    - [async] methods are run to completion: a rejected promise and a
      thrown exception are both [Throw].
    - pdf-lib, Buffer, crypto and mongoose are not part of the repository:
      the calls the engine makes to them are the members of [Runtime]. *)

From Stdlib Require Import Floats ZArith QArith String Ascii List Bool Lia.
Import ListNotations.
Close Scope Q_scope.

Set Implicit Arguments.
Set Warnings "-inexact-float".

(* ================================================================== *)
(** ** Results of fallible code *)

(** What a [throw] carries: an Error object (Error, TypeError,
    SyntaxError, ...) with its [message], or a bare string, which has no
    [message] property.  A string where a thrown value is expected
    stands for the Error object with that message. *)
Inductive Thrown : Type :=
| ErrorObject (message : string)
| ThrownString (text : string).

Coercion ErrorObject : string >-> Thrown.
Bind Scope string_scope with Thrown.

Inductive Result (A : Type) : Type :=
| Ok (a : A)
| Throw (error : Thrown).

Arguments Ok {A} a.
Arguments Throw {A} error.

(** [`${error.message}`]: the message of an Error object; a bare string
    has none and the template prints "undefined". *)
Definition messageText (error : Thrown) : string :=
  match error with
  | ErrorObject message => message
  | ThrownString _ => "undefined"
  end.

(** What [console.error(label, error)] shows of [error]: the message of
    an Error object (its name and stack are left out), the string
    itself for a bare string. *)
Definition printed (error : Thrown) : string :=
  match error with
  | ErrorObject message => message
  | ThrownString text => text
  end.

Definition bind {A B : Type} (r : Result A) (k : A -> Result B) : Result B :=
  match r with
  | Ok a => k a
  | Throw e => Throw e
  end.

Notation "'let*' x ':=' r 'in' k" := (bind r (fun x => k))
  (at level 10, x name, r at level 100, k at level 200).

(* ================================================================== *)
(** ** JavaScript values *)

(** The primitives [JSON.parse] produces, and [undefined] for an absent
    property.  Arrays and objects as property values are not modelled. *)
Inductive JSValue : Type :=
| JSUndefined
| JSNull
| JSBool (b : bool)
| JSNumber (n : float)
| JSString (s : string).

(** ToBoolean: [!v] is [negb (ToBoolean v)]. *)
Definition ToBoolean (v : JSValue) : bool :=
  match v with
  | JSUndefined | JSNull => false
  | JSBool b => b
  | JSNumber n => negb (PrimFloat.eqb n 0 || PrimFloat.is_nan n)
  | JSString s => negb (String.eqb s "")
  end.

(** [a || b] *)
Definition JSor (a b : JSValue) : JSValue :=
  if ToBoolean a then a else b.

(** [v === 'literal'] *)
Definition strictEqString (v : JSValue) (lit : string) : bool :=
  match v with
  | JSString s => String.eqb s lit
  | _ => false
  end.

(* ================================================================== *)
(** ** Arithmetic of JavaScript numbers, and of the formulas read exactly *)

Class Arith (num : Type) : Type := {
  one : num;
  sub : num -> num -> num;
  mul : num -> num -> num
}.

Declare Scope num_scope.
Delimit Scope num_scope with num.
Infix "-" := sub : num_scope.
Infix "*" := mul : num_scope.

(** binary64, round to nearest even: the arithmetic Node performs. *)
#[export] Instance float_Arith : Arith float := {|
  one := 1%float;
  sub := PrimFloat.sub;
  mul := PrimFloat.mul
|}.

(** Exact rational arithmetic. *)
#[export] Instance Q_Arith : Arith Q := {|
  one := 1%Q;
  sub := Qminus;
  mul := Qmult
|}.

(* ================================================================== *)
(** ** Coordinate normalizer *)

(** The four fractions of a placement. *)
Record Placement (num : Type) : Type := {
  xPct : num;
  yPct : num;
  wPct : num;
  hPct : num
}.

(** The object literal [normalizeCoordinates] returns. *)
Record Coords (num : Type) : Type := {
  x : num;
  y : num;
  width : num;
  height : num
}.

(** [normalizeCoordinates(field, pdfWidth, pdfHeight)], server.js 59-67.
    [1 - a - b] associates to the left, as in JavaScript. *)
Definition normalizeCoordinates {num : Type} `{Arith num}
    (field : Placement num) (pdfWidth pdfHeight : num) : Coords num :=
  {| x := (xPct field * pdfWidth)%num;
     y := ((one - yPct field - hPct field) * pdfHeight)%num;
     width := (wPct field * pdfWidth)%num;
     height := (hPct field * pdfHeight)%num |}.

(* ================================================================== *)
(** ** Strings: [startsWith] and [split] *)

(** [s.startsWith(p)] *)
Definition startsWith (s p : string) : bool := String.prefix p s.

(** [s.split(sep)] for a non-empty separator: the pieces between the
    successive, non-overlapping occurrences of [sep], left to right.
    [skip] counts the characters of a matched separator still to drop;
    [acc] is the piece being read. *)
Fixpoint splitFrom (sep : string) (skip : nat) (acc s : string) : list string :=
  match s with
  | EmptyString => [acc]
  | String c rest =>
      match skip with
      | S k => splitFrom sep k acc rest
      | O =>
          if String.prefix sep s
          then acc :: splitFrom sep (String.length sep - 1) EmptyString rest
          else splitFrom sep 0 (acc ++ String c EmptyString) rest
      end
  end.

Definition split (s sep : string) : list string := splitFrom sep 0 EmptyString s.

(* ================================================================== *)
(** ** Arrays indexed by a JavaScript value *)

Definition isDigit (c : ascii) : bool :=
  let n := N_of_ascii c in (48 <=? n)%N && (n <=? 57)%N.

Fixpoint decimalValue (acc : N) (s : string) : option N :=
  match s with
  | EmptyString => Some acc
  | String c rest =>
      if isDigit c
      then decimalValue (10 * acc + (N_of_ascii c - 48))%N rest
      else None
  end.

(** A property key that is an array index: the canonical decimal form
    of a non-negative integer ("0", "7", "12"; not "", "07", "-1", "1.0"). *)
Definition arrayIndexOfString (s : string) : option N :=
  match s with
  | EmptyString => None
  | String c rest =>
      if Ascii.eqb c "0"
      then match rest with EmptyString => Some 0%N | _ => None end
      else decimalValue 0 s
  end.

(** The array index a number denotes as a property key, if any: numbers
    are turned into keys by ToString, which prints a non-negative
    integer in canonical decimal form and every other number as
    something that is not an array index. *)
Definition arrayIndexOfNumber (n : float) : option N :=
  match Prim2SF n with
  | S754_zero _ => Some 0%N
  | S754_finite false m e =>
      if (0 <=? e)%Z then Some (Z.to_N (Z.pos m * 2 ^ e))
      else if (Z.pos m mod 2 ^ (- e) =? 0)%Z
           then Some (Z.to_N (Z.pos m / 2 ^ (- e)))
           else None
  | _ => None
  end.

(** The element at an array index: [None] is [undefined]. *)
Definition element {A : Type} (arr : list A) (i : N) : option A :=
  if (i <? N.of_nat (List.length arr))%N then nth_error arr (N.to_nat i)
  else None.

(** [arr[key]] *)
Definition elementAt {A : Type} (arr : list A) (key : JSValue) : option A :=
  match key with
  | JSNumber n =>
      match arrayIndexOfNumber n with
      | Some i => element arr i
      | None => None
      end
  | JSString s =>
      match arrayIndexOfString s with
      | Some i => element arr i
      | None => None
      end
  | _ => None
  end.

(** [arr.length]: a non-negative integer. *)
Definition lengthOf {A : Type} (arr : list A) : N := N.of_nat (List.length arr).

(** [f >= n] for a number [f] and a non-negative integer [n], decided on
    the sign, mantissa and exponent of [f]; false when [f] is NaN. *)
Definition geInteger (f : float) (n : N) : bool :=
  match Prim2SF f with
  | S754_nan => false
  | S754_infinity negative => negb negative
  | S754_zero _ => (n =? 0)%N
  | S754_finite true _ _ => false
  | S754_finite false m e =>
      if (0 <=? e)%Z then (Z.of_N n <=? Z.pos m * 2 ^ e)%Z
      else (Z.of_N n * 2 ^ (- e) <=? Z.pos m)%Z
  end.

(* ================================================================== *)
(** ** The document, as pdf-lib presents it to the engine *)

Record Color : Type := rgb { red : float; green : float; blue : float }.

Inductive ImageFormat : Type := Png | Jpg.

(** What [embedPng] / [embedJpg] hand back. *)
Record PDFImage : Type := {
  imageFormat : ImageFormat;
  imageBytes : list Byte.byte
}.

Record PDFFont : Type := { fontName : string }.

Definition Helvetica : string := "Helvetica".

(** The drawing calls made on a page, with the arguments as passed. *)
Inductive DrawOp : Type :=
| DrawRectangle (box : Coords float) (borderColor : Color)
    (borderWidth opacity : float)
| DrawImage (image : PDFImage) (box : Coords float)
| DrawText (text : JSValue) (tx ty size : float) (font : PDFFont)
    (color : Color)
| DrawCircle (cx cy size : float) (color : Color) (borderWidth : float)
    (borderColor backgroundColor : Color).

Record PDFPage : Type := {
  pageWidth : float;
  pageHeight : float;
  drawn : list DrawOp
}.

Inductive Resource : Type :=
| FontResource (font : PDFFont)
| ImageResource (image : PDFImage).

(** A loaded document: its pages, what has been embedded in it, and
    the modification date [PDFDocument.load] stamps it with.  Page
    objects are shared between [pdfDoc] and the array [getPages()]
    returns: a page reference is the page's position in [docPages]. *)
Record PDFDocument : Type := {
  docPages : list PDFPage;
  docResources : list Resource;
  docModified : Z
}.

Definition PageRef : Type := nat.

Definition getPages (pdfDoc : PDFDocument) : list PageRef :=
  seq 0 (List.length (docPages pdfDoc)).

Definition embedFont (pdfDoc : PDFDocument) (name : string)
  : PDFDocument * PDFFont :=
  let font := {| fontName := name |} in
  ({| docPages := docPages pdfDoc;
      docResources := docResources pdfDoc ++ [FontResource font];
      docModified := docModified pdfDoc |}, font).

Definition addImage (pdfDoc : PDFDocument) (image : PDFImage) : PDFDocument :=
  {| docPages := docPages pdfDoc;
     docResources := docResources pdfDoc ++ [ImageResource image];
     docModified := docModified pdfDoc |}.

Fixpoint updateNth {A : Type} (l : list A) (i : nat) (f : A -> A) : list A :=
  match l, i with
  | [], _ => []
  | a :: rest, O => f a :: rest
  | a :: rest, S j => a :: updateNth rest j f
  end.

(** What a drawing call that pdf-lib accepts does to the page [page]
    refers to; whether it accepts the call is [rejects] of the runtime,
    below. *)
Definition draw (pdfDoc : PDFDocument) (page : PageRef) (op : DrawOp)
  : PDFDocument :=
  {| docPages :=
       updateNth (docPages pdfDoc) page
         (fun p => {| pageWidth := pageWidth p;
                      pageHeight := pageHeight p;
                      drawn := drawn p ++ [op] |});
     docResources := docResources pdfDoc;
     docModified := docModified pdfDoc |}.

(** [page.getSize()].  Every reference [getPages] returns is live; a
    reference to no page has no size to give. *)
Definition getSize (pdfDoc : PDFDocument) (page : PageRef)
  : Result (float * float) :=
  match nth_error (docPages pdfDoc) page with
  | Some p => Ok (pageWidth p, pageHeight p)
  | None => Throw "page is not part of the document"
  end.

(* ================================================================== *)
(** ** Placements and the runtime *)

(** One element of [fieldsPayload].  The engine reads [type],
    [pageNumber], [value] and the four fractions, which are taken to be
    numbers; [others] holds every further property the JSON object
    carries ([id], ...), none of which the engine reads. *)
Record Field : Type := {
  type : JSValue;
  pageNumber : JSValue;
  value : JSValue;
  fractions :> Placement float;
  others : list (string * JSValue)
}.

(** What one run finds outside the engine: the library calls and the
    clock.
    - [StringToNumber]: ECMAScript's conversion of a string to a number;
    - [fromBase64]: [Buffer.from(s, 'base64')], which never throws;
    - [embedPng], [embedJpg]: pdf-lib's image parsers, which throw on
      bytes they cannot read;
    - [now]: what [new Date()] reads during the run;
    - [load]: [PDFDocument.load], which stamps the document with the
      time it reads, its first argument;
    - [save]: [pdfDoc.save];
    - [rejects]: pdf-lib's checks of a drawing call ([drawRectangle],
      [drawImage], [drawText], [drawCircle]): [Some error] when the call
      throws [error] (an option that is NaN, a text that is no string
      or that the font cannot encode), [None] when it draws;
    - [sha256hex]: [crypto.createHash('sha256').update(b).digest('hex')]. *)
Record Runtime : Type := {
  StringToNumber : string -> float;
  fromBase64 : string -> list Byte.byte;
  embedPng : list Byte.byte -> Result PDFImage;
  embedJpg : list Byte.byte -> Result PDFImage;
  now : Z;
  load : Z -> list Byte.byte -> Result PDFDocument;
  save : PDFDocument -> Result (list Byte.byte);
  rejects : DrawOp -> option Thrown;
  sha256hex : list Byte.byte -> string
}.

(** A drawing call on the page [page] refers to: it throws what pdf-lib
    throws, or draws. *)
Definition drawCall (rt : Runtime) (pdfDoc : PDFDocument) (page : PageRef)
    (op : DrawOp) : Result PDFDocument :=
  match rejects rt op with
  | Some error => Throw error
  | None => Ok (draw pdfDoc page op)
  end.

(** ToNumber *)
Definition ToNumber (rt : Runtime) (v : JSValue) : float :=
  match v with
  | JSUndefined => nan
  | JSNull => 0
  | JSBool b => if b then 1 else 0
  | JSNumber n => n
  | JSString s => StringToNumber rt s
  end.

(** [v >= n] for an array length [n]: [v] is converted to a number. *)
Definition JSge (rt : Runtime) (v : JSValue) (n : N) : bool :=
  geInteger (ToNumber rt v) n.

(* ================================================================== *)
(** ** The world outside the engine: files, console, audit collection *)

Inductive LogLine : Type :=
| ConsoleLog (text : string)
| ConsoleError (text : string).

(** The document [new AuditEntry({...})] builds (the [timestamp] default
    is left to the store). *)
Record AuditEntry : Type := {
  pdfName : string;
  originalHash : string;
  signedHash : string;
  fields : list Field
}.

(** [auditFault] is the audit sink's verdict on a write: [Some message]
    when [audit.save()] rejects with that message (validation, no
    connection), [None] when the entry is stored. *)
Record World : Type := {
  files : string -> option (list Byte.byte);
  writable : string -> bool;
  console : list LogLine;
  auditFault : AuditEntry -> option string;
  auditLog : list AuditEntry
}.

(** Code that runs in the world and may throw. *)
Definition M (A : Type) : Type := World -> World * Result A.

Definition ret {A : Type} (a : A) : M A := fun w => (w, Ok a).

Definition throw {A : Type} (error : Thrown) : M A :=
  fun w => (w, Throw error).

Definition bindM {A B : Type} (m : M A) (k : A -> M B) : M B :=
  fun w =>
    match m w with
    | (w', Ok a) => k a w'
    | (w', Throw error) => (w', Throw error)
    end.

(** [try { m } catch (error) { handler(error) }] *)
Definition tryCatch {A : Type} (m : M A) (handler : Thrown -> M A) : M A :=
  fun w =>
    match m w with
    | (w', Ok a) => (w', Ok a)
    | (w', Throw error) => handler error w'
    end.

Definition lift {A : Type} (r : Result A) : M A := fun w => (w, r).

Notation "x <- m ;; k" := (bindM m (fun x => k))
  (at level 61, m at next level, right associativity).
Notation "m ;;; k" := (bindM m (fun _ => k))
  (at level 61, right associativity).

Definition consoleLog (text : string) : M unit :=
  fun w =>
    ({| files := files w; writable := writable w;
        console := console w ++ [ConsoleLog text];
        auditFault := auditFault w; auditLog := auditLog w |}, Ok tt).

Definition consoleError (text : string) : M unit :=
  fun w =>
    ({| files := files w; writable := writable w;
        console := console w ++ [ConsoleError text];
        auditFault := auditFault w; auditLog := auditLog w |}, Ok tt).

(** [fs.readFile(path)] *)
Definition readFile (path : string) : M (list Byte.byte) :=
  fun w =>
    match files w path with
    | Some bytes => (w, Ok bytes)
    | None => (w, Throw ("ENOENT: no such file or directory, open '"
                           ++ path ++ "'"))
    end.

(** [fs.writeFile(path, bytes)] *)
Definition writeFile (path : string) (bytes : list Byte.byte) : M unit :=
  fun w =>
    if writable w path
    then ({| files := fun p => if String.eqb p path then Some bytes
                               else files w p;
             writable := writable w; console := console w;
             auditFault := auditFault w; auditLog := auditLog w |}, Ok tt)
    else (w, Throw ("ENOENT: no such file or directory, open '"
                      ++ path ++ "'")).

(** [audit.save()] *)
Definition auditSave (audit : AuditEntry) : M unit :=
  fun w =>
    match auditFault w audit with
    | Some message => (w, Throw message)
    | None =>
        ({| files := files w; writable := writable w; console := console w;
            auditFault := auditFault w;
            auditLog := auditLog w ++ [audit] |}, Ok tt)
    end.

(* ================================================================== *)
(** ** The injection engine *)

Section Engine.

Variable rt : Runtime.

Record ImageData : Type := {
  buffer : list Byte.byte;
  mime : option string
}.

(** [parseBase64Image(dataUrl)], server.js 46-53.  [Ok None] is the
    [null] result; a truthy value that is not a string has no
    [startsWith] method. *)
Definition parseBase64Image (dataUrl : JSValue) : Result (option ImageData) :=
  if negb (ToBoolean dataUrl) then Ok None
  else
    match dataUrl with
    | JSString s =>
        if negb (startsWith s "data:") then Ok None
        else
          let parts := split s ";base64," in
          if negb (List.length parts =? 2)%nat then Ok None
          else
            let mime := nth_error (split (nth 0 parts EmptyString) ":") 1 in
            let buffer := fromBase64 rt (nth 1 parts EmptyString) in
            Ok (Some {| buffer := buffer; mime := mime |})
    | _ => Throw "dataUrl.startsWith is not a function"
    end.

Definition mimeIs (m : option string) (lit : string) : bool :=
  match m with
  | Some s => String.eqb s lit
  | None => false
  end.

(** [injectField(pdfDoc, page, field, font)], server.js 72-147.  The
    document is returned as the call leaves it; a [return] inside the
    [switch] and falling out of it both end the call normally; what a
    library call throws, the call throws.  [page] is [None] when the
    caller passes [undefined]. *)
Definition injectField (pdfDoc : PDFDocument) (page : option PageRef)
    (field : Field) (font : PDFFont) : Result PDFDocument :=
  match page with
  | None => Throw "Cannot read properties of undefined (reading 'getSize')"
  | Some page =>
      let* size := getSize pdfDoc page in
      let pdfWidth := fst size in
      let pdfHeight := snd size in
      let pdfCoords := normalizeCoordinates field pdfWidth pdfHeight in
      (* Only draw the bounding box for radio fields. *)
      let* pdfDoc :=
        if strictEqString (type field) "radio"
        then drawCall rt pdfDoc page
               (DrawRectangle pdfCoords (rgb 0.1 0.4 0.8) 1 0.1)
        else Ok pdfDoc in
      if strictEqString (type field) "signature"
         || strictEqString (type field) "image"
      then
        let* imageData := parseBase64Image (value field) in
        match imageData with
        | None => Ok pdfDoc
        | Some imageData =>
            if mimeIs (mime imageData) "image/png" then
              let* pdfImage := embedPng rt (buffer imageData) in
              drawCall rt (addImage pdfDoc pdfImage) page
                (DrawImage pdfImage pdfCoords)
            else if mimeIs (mime imageData) "image/jpeg"
                    || mimeIs (mime imageData) "image/jpg" then
              let* pdfImage := embedJpg rt (buffer imageData) in
              drawCall rt (addImage pdfDoc pdfImage) page
                (DrawImage pdfImage pdfCoords)
            else Ok pdfDoc
        end
      else if strictEqString (type field) "text"
              || strictEqString (type field) "date"
      then
        if negb (ToBoolean (value field)) then Ok pdfDoc
        else
          let fontSize := 10%float in
          drawCall rt pdfDoc page
            (DrawText (value field)
               (x pdfCoords + 2)
               (y pdfCoords + height pdfCoords - fontSize - 2)
               fontSize font (rgb 0 0 0))
      else if strictEqString (type field) "radio"
      then
        if negb (ToBoolean (value field)) then Ok pdfDoc
        else
          drawCall rt pdfDoc page
            (DrawCircle
               (x pdfCoords + width pdfCoords / 2)
               (y pdfCoords + height pdfCoords / 2)
               (width pdfCoords / 4)
               (rgb 0 0 1) 1 (rgb 0 0 0.8) (rgb 0 0 1))
      else Ok pdfDoc
  end.

(** The [for (const field of fieldsPayload)] loop of [injectFields],
    server.js 181-187; [pages] is the array taken before the loop. *)
Fixpoint injectLoop (pdfDoc : PDFDocument) (pages : list PageRef)
    (standardFont : PDFFont) (fieldsPayload : list Field)
  : Result PDFDocument :=
  match fieldsPayload with
  | [] => Ok pdfDoc
  | field :: rest =>
      let pageNumber := JSor (pageNumber field) (JSNumber 0) in
      if JSge rt pageNumber (lengthOf pages)
      then injectLoop pdfDoc pages standardFont rest
      else
        let page := elementAt pages pageNumber in
        let* pdfDoc := injectField pdfDoc page field standardFont in
        injectLoop pdfDoc pages standardFont rest
  end.

(** [logAuditEntry(pdfName, originalHash, signedHash, fieldsPayload)],
    server.js 152-165. *)
Definition logAuditEntry (pdfName originalHash signedHash : string)
    (fieldsPayload : list Field) : M unit :=
  tryCatch
    (let audit := {| pdfName := pdfName;
                     originalHash := originalHash;
                     signedHash := signedHash;
                     fields := fieldsPayload |} in
     auditSave audit ;;;
     consoleLog ("[DB] Audit log saved for " ++ pdfName))
    (fun error =>
       consoleError ("[DB] Failed to save audit log: " ++ messageText error)).

Definition newline : string := String (ascii_of_nat 10) EmptyString.

(** [injectFields(pdfPath, pdfName, fieldsPayload, outputPath)],
    server.js 170-207.  The call to [logAuditEntry] is not awaited; its
    promise never rejects, and its effects are placed before the
    return.  The [catch] prints the thrown value and throws a new Error
    whose message interpolates [error.message]. *)
Definition injectFields (pdfPath pdfName : string)
    (fieldsPayload : list Field) (outputPath : string) : M string :=
  tryCatch
    (existingPdfBytes <- readFile pdfPath ;;
     let originalHash := sha256hex rt existingPdfBytes in
     pdfDoc <- lift (load rt (now rt) existingPdfBytes) ;;
     let (pdfDoc, standardFont) := embedFont pdfDoc Helvetica in
     let pages := getPages pdfDoc in
     pdfDoc <- lift (injectLoop pdfDoc pages standardFont fieldsPayload) ;;
     pdfBytes <- lift (save rt pdfDoc) ;;
     writeFile outputPath pdfBytes ;;;
     let finalHash := sha256hex rt pdfBytes in
     consoleLog (newline ++ "--- AUDIT TRAIL ---") ;;;
     consoleLog ("Original PDF Hash: " ++ originalHash) ;;;
     consoleLog ("Signed PDF Hash: " ++ finalHash) ;;;
     consoleLog ("-------------------" ++ newline) ;;;
     logAuditEntry pdfName originalHash finalHash fieldsPayload ;;;
     ret outputPath)
    (fun error =>
       consoleError ("Error during PDF injection: " ++ printed error) ;;;
       throw (ErrorObject ("PDF injection failed: " ++ messageText error))).

End Engine.

(* ================================================================== *)
(** ** A small runtime and world, to run the engine on examples

    Stand-ins for the libraries, enough to evaluate the engine:
    [sampleRuntime] reads a string of decimal digits as a number,
    decodes base64 for real, accepts an image by its magic number and a
    document by its [%PDF] header, loads every document as one blank A4
    page stamped with the time of loading, refuses a drawing call with
    a NaN number or a text that is no string, and serializes and
    digests with toy encodings (the digest is a checksum, not SHA-256).
    Its PNG parser throws a bare string, as pdf-lib's does; its clock
    reads 0. *)

Definition sextet (c : ascii) : option N :=
  let n := N_of_ascii c in
  if (65 <=? n)%N && (n <=? 90)%N then Some (n - 65)%N
  else if (97 <=? n)%N && (n <=? 122)%N then Some (n - 71)%N
  else if (48 <=? n)%N && (n <=? 57)%N then Some (n + 4)%N
  else if (n =? 43)%N then Some 62%N
  else if (n =? 47)%N then Some 63%N
  else None.

Fixpoint sextets (s : string) : list N :=
  match s with
  | EmptyString => []
  | String c rest =>
      if Ascii.eqb c "=" then []
      else match sextet c with
           | Some v => v :: sextets rest
           | None => sextets rest
           end
  end.

Definition byteOfN (n : N) : Byte.byte :=
  match Byte.of_N (n mod 256) with
  | Some b => b
  | None => Byte.x00
  end.

Fixpoint octets (l : list N) : list Byte.byte :=
  match l with
  | a :: b :: c :: d :: rest =>
      byteOfN (a * 4 + b / 16) :: byteOfN (b * 16 + c / 4)
        :: byteOfN (c * 64 + d) :: octets rest
  | [a; b; c] => [byteOfN (a * 4 + b / 16); byteOfN (b * 16 + c / 4)]
  | [a; b] => [byteOfN (a * 4 + b / 16)]
  | _ => []
  end%N.

Definition bytesOfString (s : string) : list Byte.byte :=
  List.map byte_of_ascii (list_ascii_of_string s).

Fixpoint startsWithBytes (l p : list Byte.byte) : bool :=
  match p, l with
  | [], _ => true
  | b :: p', c :: l' => Byte.eqb b c && startsWithBytes l' p'
  | _ :: _, [] => false
  end.

Definition pngSignature : list Byte.byte :=
  [Byte.x89; Byte.x50; Byte.x4e; Byte.x47;
   Byte.x0d; Byte.x0a; Byte.x1a; Byte.x0a].

Definition jpegSignature : list Byte.byte := [Byte.xff; Byte.xd8; Byte.xff].

Definition blankA4 : PDFPage :=
  {| pageWidth := 595; pageHeight := 842; drawn := [] |}.

Definition opCode (op : DrawOp) : Byte.byte :=
  match op with
  | DrawRectangle _ _ _ _ => Byte.x72
  | DrawImage _ _ => Byte.x69
  | DrawText _ _ _ _ _ _ => Byte.x74
  | DrawCircle _ _ _ _ _ _ _ => Byte.x63
  end.

Fixpoint hexOfN (digits : nat) (n : N) : string :=
  match digits with
  | O => EmptyString
  | S k =>
      hexOfN k (n / 16)
        ++ String (ascii_of_N (let d := (n mod 16)%N in
                               if (d <? 10)%N then d + 48 else d + 87)%N)
             EmptyString
  end.

Definition checksum (bytes : list Byte.byte) : N :=
  fold_left (fun acc b => ((acc * 31 + Byte.to_N b) mod 2 ^ 32)%N) bytes 7%N.

(** The bytes of a time stamp: its base-256 digits, lowest first (none
    for 0). *)
Fixpoint digitBytes (digits : nat) (n : N) : list Byte.byte :=
  match digits with
  | O => []
  | S k => if (n =? 0)%N then [] else byteOfN n :: digitBytes k (n / 256)
  end.

(** The numbers among the options of a drawing call. *)
Definition optionNumbers (op : DrawOp) : list float :=
  match op with
  | DrawRectangle box _ borderWidth opacity =>
      [x box; y box; width box; height box; borderWidth; opacity]
  | DrawImage _ box => [x box; y box; width box; height box]
  | DrawText _ tx ty size _ _ => [tx; ty; size]
  | DrawCircle cx cy size _ borderWidth _ _ => [cx; cy; size; borderWidth]
  end.

Definition sampleRejects (op : DrawOp) : option Thrown :=
  if existsb PrimFloat.is_nan (optionNumbers op)
  then Some (ErrorObject "option must be of type number, but was actually of type NaN")
  else
    match op with
    | DrawText (JSString _) _ _ _ _ _ => None
    | DrawText _ _ _ _ _ _ =>
        Some (ErrorObject "text must be of type string")
    | _ => None
    end.

Definition sampleRuntime : Runtime :=
  {| StringToNumber := fun s =>
       match decimalValue 0 s with
       | Some n => PrimFloat.of_uint63 (Uint63.of_Z (Z.of_N n))
       | None => nan
       end;
     fromBase64 := fun s => octets (sextets s);
     embedPng := fun bytes =>
       if startsWithBytes bytes pngSignature
       then Ok {| imageFormat := Png; imageBytes := bytes |}
       else Throw (ThrownString "Input is not a PNG");
     embedJpg := fun bytes =>
       if startsWithBytes bytes jpegSignature
       then Ok {| imageFormat := Jpg; imageBytes := bytes |}
       else Throw "SOI not found in JPEG";
     now := 0;
     load := fun time bytes =>
       if startsWithBytes bytes (bytesOfString "%PDF")
       then Ok {| docPages := [blankA4]; docResources := [];
                  docModified := time |}
       else Throw "No PDF header found";
     save := fun pdfDoc =>
       Ok (bytesOfString "%PDF"
             ++ flat_map (fun p => Byte.x0c :: List.map opCode (drawn p))
                  (docPages pdfDoc)
             ++ digitBytes 8 (Z.to_N (docModified pdfDoc)));
     rejects := sampleRejects;
     sha256hex := fun bytes => hexOfN 8 (checksum bytes) |}.

(** One upload waiting in [uploads/], every path writable, a sink that
    stores what it is given. *)
Definition sampleWorld : World :=
  {| files := fun p => if String.eqb p "uploads/a1" then
                         Some (bytesOfString "%PDF-1.7")
                       else None;
     writable := fun _ => true;
     console := [];
     auditFault := fun _ => None;
     auditLog := [] |}.

(** The same world with the audit store unreachable. *)
Definition sinkDownWorld : World :=
  {| files := files sampleWorld;
     writable := writable sampleWorld;
     console := [];
     auditFault := fun _ => Some "buffering timed out"%string;
     auditLog := [] |}.

Definition sampleDoc : PDFDocument :=
  {| docPages := [blankA4]; docResources := []; docModified := 0 |}.

Definition sampleFont : PDFFont := {| fontName := Helvetica |}.

(** The placement of the specification's scenario. *)
Definition scenario : Placement float :=
  {| xPct := 0.1%float; yPct := 0.1%float;
     wPct := 0.3%float; hPct := 0.05%float |}.

Definition scenarioQ : Placement Q :=
  {| xPct := 1 # 10; yPct := 1 # 10; wPct := 3 # 10; hPct := 5 # 100 |}%Q.

Definition mkField (t : string) (page value : JSValue) : Field :=
  {| type := JSString t; pageNumber := page; value := value;
     fractions := scenario; others := [("id"%string, JSNumber 1)] |}.

(** The same placement with another [value]. *)
Definition withValue (field : Field) (v : JSValue) : Field :=
  {| type := type field; pageNumber := pageNumber field; value := v;
     fractions := fractions field; others := others field |}.

(** The same runtime with the clock reading [time]. *)
Definition atTime (rt : Runtime) (time : Z) : Runtime :=
  {| StringToNumber := StringToNumber rt; fromBase64 := fromBase64 rt;
     embedPng := embedPng rt; embedJpg := embedJpg rt;
     now := time; load := load rt; save := save rt;
     rejects := rejects rt; sha256hex := sha256hex rt |}.

(** The same world with another audit sink. *)
Definition withSink (w : World) (fault : AuditEntry -> option string) : World :=
  {| files := files w; writable := writable w; console := console w;
     auditFault := fault; auditLog := auditLog w |}.

(* ================================================================== *)
(** ** Vocabulary of the specification *)

(** The closed set of field types. *)
Definition isFieldType (t : JSValue) : bool :=
  strictEqString t "signature" || strictEqString t "text"
  || strictEqString t "date" || strictEqString t "image"
  || strictEqString t "radio".

(** A media type the engine embeds. *)
Definition isRaster (m : option string) : bool :=
  mimeIs m "image/png" || mimeIs m "image/jpeg" || mimeIs m "image/jpg".

(** The four lines a completed run prints between its two rules. *)
Definition auditTrail (original signed : string) : list LogLine :=
  [ConsoleLog (newline ++ "--- AUDIT TRAIL ---");
   ConsoleLog ("Original PDF Hash: " ++ original);
   ConsoleLog ("Signed PDF Hash: " ++ signed);
   ConsoleLog ("-------------------" ++ newline)].

(** What a run that took the world from [before] to [after] reported as
    its hashes: the audit-trail lines it printed and, in every entry it
    added to the audit collection, the two stored hashes. *)
Definition reportsHashes (before after : World) (original signed : string)
  : Prop :=
  (exists tail,
      console after = console before ++ auditTrail original signed ++ tail)
  /\ (forall e,
         In e (skipn (List.length (auditLog before)) (auditLog after)) ->
         originalHash e = original /\ signedHash e = signed).

(** The bytes a run serializes from the input bytes and the placements:
    load, embed the font, run the loop, save. *)
Definition signedBytes (rt : Runtime) (existingPdfBytes : list Byte.byte)
    (fieldsPayload : list Field) : Result (list Byte.byte) :=
  let* pdfDoc := load rt (now rt) existingPdfBytes in
  let* pdfDoc :=
    injectLoop rt (fst (embedFont pdfDoc Helvetica))
      (getPages (fst (embedFont pdfDoc Helvetica)))
      (snd (embedFont pdfDoc Helvetica)) fieldsPayload in
  save rt pdfDoc.

(** The world a failed run leaves, and its rejection. *)
Definition failedRun (w : World) (error : Thrown) : World * Result string :=
  (fst (consoleError ("Error during PDF injection: " ++ printed error) w),
   Throw (ErrorObject ("PDF injection failed: " ++ messageText error))).

(** The world a completed run leaves: the output file written, the audit
    trail printed, the audit entry handed to the sink. *)
Definition completedRun (w : World) (pdfName outputPath : string)
    (pdfBytes : list Byte.byte) (original signed : string)
    (fieldsPayload : list Field) : World :=
  fst (logAuditEntry pdfName original signed fieldsPayload
         {| files := fun p => if String.eqb p outputPath then Some pdfBytes
                              else files w p;
            writable := writable w;
            console := console w ++ auditTrail original signed;
            auditFault := auditFault w;
            auditLog := auditLog w |}).

(* ================================================================== *)
(** ** The endpoint [POST /api/burn-fields] *)

(** [req.file], as the upload middleware leaves it. *)
Record UploadedFile : Type := {
  path : string;
  originalname : string;
  filename : string
}.

(** What the handler reads of a request: [req.file] ([None] when no
    file came under the name "pdf") and [req.body.fields] ([None] when
    the form has no such part). *)
Record Request : Type := {
  file : option UploadedFile;
  fieldsJson : option string
}.

(** What the handler answers: [res.status(s).json({ message })], or
    [res.download] of a file that could be read, or nothing when
    [res.download] cannot read the file and hands the error to its
    callback. *)
Inductive Response : Type :=
| Json (status : nat) (message : string)
| Download (name : string) (content : list Byte.byte)
| Unsent.

(** [error.message] *)
Definition messageOf (error : Thrown) : JSValue :=
  match error with
  | ErrorObject message => JSString message
  | ThrownString _ => JSUndefined
  end.

(** An optional string as the value it is ([undefined] when absent). *)
Definition optionalString (s : option string) : JSValue :=
  match s with
  | Some s => JSString s
  | None => JSUndefined
  end.

(** [fs.unlink(path)] *)
Definition unlink (path : string) : M unit :=
  fun w =>
    match files w path with
    | Some _ =>
        ({| files := fun p => if String.eqb p path then None else files w p;
            writable := writable w; console := console w;
            auditFault := auditFault w; auditLog := auditLog w |}, Ok tt)
    | None => (w, Throw ("ENOENT: no such file or directory, unlink '"
                           ++ path ++ "'"))
    end.

(** [fs.unlink(path).catch(e => console.error(label, e))] *)
Definition unlinkLogged (path label : string) : M unit :=
  tryCatch (unlink path)
    (fun error => consoleError (label ++ " " ++ printed error)).

(** [res.download(outputPath, outputFilename, callback)]: the file is
    sent and the callback runs afterwards, outside the handler's [try];
    what the callback returns is dropped.  The only sending error
    modelled is a file that cannot be read. *)
Definition download (outputPath outputFilename : string)
    (callback : option string -> M unit) : M Response :=
  fun w =>
    match files w outputPath with
    | Some bytes => (fst (callback None w), Ok (Download outputFilename bytes))
    | None =>
        (fst (callback (Some ("ENOENT: no such file or directory, stat '"
                                ++ outputPath ++ "'")%string) w),
         Ok Unsent)
    end.

Section Endpoint.

Variable rt : Runtime.

(** [JSON.parse] on the text of an array of placement objects; [Throw]
    carries the SyntaxError. *)
Variable JSONparse : string -> Result (list Field).

(** The handler of [app.post('/api/burn-fields', upload.single('pdf'), ...)],
    server.js 227-266.  [path.join('output', name)] is ["output/" ++ name]
    for the file names the upload middleware generates. *)
Definition burnFields (req : Request) : M Response :=
  match file req with
  | None => ret (Json 400 "No PDF file uploaded.")
  | Some upload =>
      tryCatch
        (let pdfPath := path upload in
         let pdfName := originalname upload in
         if negb (ToBoolean (optionalString (fieldsJson req)))
         then
           unlink pdfPath ;;;
           ret (Json 400 "Missing fields payload.")
         else
           fieldsPayload <-
             lift (match fieldsJson req with
                   | Some text => JSONparse text
                   | None => Throw "Unexpected token u in JSON at position 0"
                   end) ;;
           let outputFilename := ("signed-" ++ filename upload ++ ".pdf")%string in
           let outputPath := ("output/" ++ outputFilename)%string in
           injectFields rt pdfPath pdfName fieldsPayload outputPath ;;;
           (* Send the generated PDF back to the client *)
           download outputPath outputFilename
             (fun err =>
                match err with
                | Some message => consoleError ("Error sending file: " ++ message)
                | None => ret tt
                end ;;;
                (* Cleanup temporary files after sending *)
                unlinkLogged pdfPath "Cleanup error (uploads):" ;;;
                unlinkLogged outputPath "Cleanup error (output):"))
        (fun error =>
           consoleError ("API Error: " ++ printed error) ;;;
           (* Ensure the uploaded file is removed even on failure *)
           (if ToBoolean (JSString (path upload))
            then unlinkLogged (path upload) "Cleanup error (failure):"
            else ret tt) ;;;
           ret (Json 500
                  (if ToBoolean (messageOf error) then messageText error
                   else "Internal Server Error during PDF processing.")))
  end.

End Endpoint.

(* ================================================================== *)
(** ** The authoring side: how a payload element is made *)

Module App.

(** Division and the reference frame, for numbers and for the formulas
    read exactly. *)
Class Authoring (num : Type) : Type := {
  quot : num -> num -> num;
  A4_WIDTH : num;
  A4_HEIGHT : num
}.

#[global] Instance float_Authoring : Authoring float := {|
  quot := PrimFloat.div;
  A4_WIDTH := 595%float;
  A4_HEIGHT := 842%float
|}.

#[global] Instance Q_Authoring : Authoring Q := {|
  quot := Qdiv;
  A4_WIDTH := 595%Q;
  A4_HEIGHT := 842%Q
|}.

(** A field as the viewer holds it: its box is in points of the
    reference frame, origin at the top left, [y] the top edge. *)
Record PlacedField : Type := {
  id : string;
  type : JSValue;
  pageNumber : JSValue;
  value : JSValue;
  box :> Coords float
}.

(** The four divisions of [getNormalizedCoordinates]. *)
Definition fractionsOf {num : Type} `{Authoring num} (field : Coords num)
  : Placement num :=
  {| xPct := quot (x field) A4_WIDTH;
     yPct := quot (y field) A4_HEIGHT;
     wPct := quot (width field) A4_WIDTH;
     hPct := quot (height field) A4_HEIGHT |}.

(** [getNormalizedCoordinates(field)] of the viewer: the payload element
    the endpoint receives.  A truthy date value that is not a string has
    no [split] method. *)
Definition getNormalizedCoordinates (field : PlacedField) : Result Field :=
  let* finalValue :=
    if strictEqString (type field) "date" && ToBoolean (value field)
    then
      match value field with
      | JSString s =>
          let parts := split s "-" in
          if (List.length parts =? 3)%nat
          then Ok (JSString (nth 2 parts EmptyString ++ "/"
                               ++ nth 1 parts EmptyString ++ "/"
                               ++ nth 0 parts EmptyString))
          else Ok (value field)
      | _ => Throw "field.value.split is not a function"
      end
    else Ok (value field) in
  Ok (Build_Field (type field) (pageNumber field) finalValue
        (fractionsOf field) [("id"%string, JSString (id field))]).

End App.

(* ================================================================== *)
(** ** Vocabulary for the properties of the code *)

(** The character [c] occurs in [s]. *)
Fixpoint hasChar (c : ascii) (s : string) : bool :=
  match s with
  | EmptyString => false
  | String d rest => Ascii.eqb c d || hasChar c rest
  end.

(** The calls [ops] made in order on one page. *)
Definition drawAll (pdfDoc : PDFDocument) (page : PageRef) (ops : list DrawOp)
  : PDFDocument :=
  fold_left (fun d op => draw d page op) ops pdfDoc.

(** A page that kept its size and every drawing call it had, in order,
    and may have gained calls after them. *)
Definition pageGrows (p p' : PDFPage) : Prop :=
  pageWidth p' = pageWidth p /\ pageHeight p' = pageHeight p
  /\ exists ops, drawn p' = drawn p ++ ops.

(** A document whose pages only grew and whose embedded resources were
    only added to. *)
Definition docGrows (d d' : PDFDocument) : Prop :=
  Forall2 pageGrows (docPages d) (docPages d')
  /\ exists rs, docResources d' = docResources d ++ rs.

(** What the [catch] of the handler does with an error. *)
Definition apiError (upload : UploadedFile) (error : Thrown) : M Response :=
  consoleError ("API Error: " ++ printed error) ;;;
  (if ToBoolean (JSString (path upload))
   then unlinkLogged (path upload) "Cleanup error (failure):"
   else ret tt) ;;;
  ret (Json 500
         (if ToBoolean (messageOf error) then messageText error
          else "Internal Server Error during PDF processing.")).

(** What the callback of [res.download] does. *)
Definition afterSend (pdfPath outputPath : string) (err : option string)
  : M unit :=
  match err with
  | Some message => consoleError ("Error sending file: " ++ message)
  | None => ret tt
  end ;;;
  unlinkLogged pdfPath "Cleanup error (uploads):" ;;;
  unlinkLogged outputPath "Cleanup error (output):".

(** The output path of a request. *)
Definition outputPathOf (upload : UploadedFile) : string :=
  "output/" ++ "signed-" ++ filename upload ++ ".pdf".

(* ================================================================== *)
(** * Properties *)

Unset Implicit Arguments.

(* ------------------------------------------------------------------ *)
(** ** binary64 facts used below *)

(** Two closed numbers differ when their sign, mantissa and exponent do. *)
Ltac float_discriminate :=
  let H := fresh in
  intro H; apply (f_equal Prim2SF) in H; vm_compute in H; discriminate H.

Lemma digits_times_2p52 (m : positive) :
  Zdigits2 (Z.pos (4503599627370496 * m)) = (Z.pos (digits2_pos m) + 52)%Z.
Proof.
  cbn. repeat rewrite Pos2Z.inj_succ. lia.
Qed.

Lemma shift_right_52 (m : positive) :
  SpecFloat.iter_pos shr_1 52
    {| shr_m := Z.pos (4503599627370496 * m); shr_r := false; shr_s := false |}
  = {| shr_m := Z.pos m; shr_r := false; shr_s := false |}.
Proof. reflexivity. Qed.

(** Multiplying by one is exact on every binary64 value. *)
Lemma float_mul_1_l (f : float) : (1 * f)%float = f.
Proof.
  apply Prim2SF_inj. rewrite mul_spec.
  pose proof (Prim2SF_valid f) as Hvalid.
  change (Prim2SF 1) with (S754_finite false 4503599627370496 (-52)).
  destruct (Prim2SF f) as [s | s | | s m e]; try reflexivity.
  unfold SF64mul, SFmul. simpl xorb.
  unfold SpecFloat.valid_binary, bounded, canonical_mantissa in Hvalid.
  apply andb_true_iff in Hvalid. destruct Hvalid as [Hcanon Hle].
  apply Z.eqb_eq in Hcanon.
  unfold binary_round_aux, shr_fexp.
  rewrite digits_times_2p52.
  replace (Z.pos (digits2_pos m) + 52 + (-52 + e))%Z
    with (Z.pos (digits2_pos m) + e)%Z by lia.
  rewrite Hcanon.
  replace (e - (-52 + e))%Z with 52%Z by lia.
  unfold shr at 1.
  change (shr_record_of_loc (Z.pos (4503599627370496 * m)) loc_Exact)
    with {| shr_m := Z.pos (4503599627370496 * m);
            shr_r := false; shr_s := false |}.
  rewrite shift_right_52.
  cbn [shr_m loc_of_shr_record round_nearest_even shr_r shr_s].
  replace (-52 + e + 52)%Z with e by lia.
  unfold Zdigits2. rewrite Hcanon. rewrite Z.sub_diag.
  cbn [shr shr_record_of_loc shr_m].
  now rewrite Hle.
Qed.

(* ------------------------------------------------------------------ *)
(** ** The helpers on examples *)

Example split_data_uri :
  split "data:image/png;base64,iVBORw0KGgo=" ";base64,"
  = ["data:image/png"; "iVBORw0KGgo="]%string.
Proof. reflexivity. Qed.

Example split_twice :
  split "data:a;base64,;base64,b" ";base64," = ["data:a"; ""; "b"]%string.
Proof. reflexivity. Qed.

Example split_no_separator : split "hello" ";base64," = ["hello"%string].
Proof. reflexivity. Qed.

Example parse_png_signature :
  parseBase64Image sampleRuntime
    (JSString "data:image/png;base64,iVBORw0KGgo=")
  = Ok (Some {| buffer := pngSignature; mime := Some "image/png"%string |}).
Proof. reflexivity. Qed.

Example array_indices :
  (elementAt [10; 20; 30] (JSNumber 2), elementAt [10; 20; 30] (JSNumber (-1)),
   elementAt [10; 20; 30] (JSNumber 1.5), elementAt [10; 20; 30] (JSNumber 3),
   elementAt [10; 20; 30] (JSString "1"), elementAt [10; 20; 30] (JSString "01"),
   elementAt [10; 20; 30] (JSBool true))%nat
  = (Some 30, None, None, None, Some 20, None, None)%nat.
Proof. reflexivity. Qed.

Example comparisons_with_a_length :
  (geInteger 0 1, geInteger 1 1, geInteger (-1) 1, geInteger 0.5 1,
   geInteger 1.5 1, geInteger nan 0, geInteger infinity 5)
  = (false, true, false, false, true, false, true).
Proof. reflexivity. Qed.

(** The values [field.pageNumber || 0] replaces by 0. *)
Example falsy_values :
  List.map ToBoolean
    [JSUndefined; JSNull; JSBool false; JSNumber 0; JSNumber (-0);
     JSNumber nan; JSString ""]
  = [false; false; false; false; false; false; false].
Proof. reflexivity. Qed.

(* ------------------------------------------------------------------ *)
(** ** The coordinate normalizer *)

(** C1, as the specification states it, fails on the scenario: in
    binary64 [(1 - 0.1 - 0.05) * 842] is 715.6999999999999, the number
    just below the one the literal 715.7 denotes. *)
Lemma scenario_y_is_not_715_7 :
  normalizeCoordinates scenario 595%float 842%float
  <> {| x := 59.5; y := 715.7; width := 178.5; height := 42.1 |}%float.
Proof.
  intro H. apply (f_equal (@y float)) in H. revert H.
  float_discriminate.
Qed.

(** C1 (amended).  For every placement and every target page size
    [normalizeCoordinates] returns [x = xPct * W], [width = wPct * W],
    [height = hPct * H] and [y = ((1 - yPct) - hPct) * H], each operation
    a binary64 operation.  The placement (0.1, 0.1, 0.3, 0.05) on a
    595 x 842 page gives x = 59.5, width = 178.5, height = 42.1 and
    y = 715.6999999999999 (0x1.65d9999999999p+9); read in exact
    arithmetic the four values are 59.5, 715.7, 178.5 and 42.1. *)
Theorem normalizeCoordinates_formulas :
  (forall (field : Placement float) (W H : float),
      normalizeCoordinates field W H
      = {| x := xPct field * W;
           y := (1 - yPct field - hPct field) * H;
           width := wPct field * W;
           height := hPct field * H |}%float)
  /\ normalizeCoordinates scenario 595%float 842%float
     = {| x := 59.5; y := 0x1.65d9999999999p+9;
          width := 178.5; height := 42.1 |}%float
  /\ (x (normalizeCoordinates scenarioQ 595 842) == 59.5
      /\ y (normalizeCoordinates scenarioQ 595 842) == 715.7
      /\ width (normalizeCoordinates scenarioQ 595 842) == 178.5
      /\ height (normalizeCoordinates scenarioQ 595 842) == 42.1)%Q.
Proof.
  split; [ | split ].
  - intros field W H. reflexivity.
  - vm_compute. reflexivity.
  - repeat split; vm_compute; reflexivity.
Qed.

(** C2, as the specification states it, fails in binary64: with
    xPct = 0.1 on a page 3 points wide, x / targetWidth is
    0.10000000000000002; and with hPct = 0.1, yPct = 1 - hPct on a page
    842 points high, y is about -2.3e-14, not 0.  All fractions are in
    [0, 1] and the page dimensions are positive. *)
Lemma roundtrip_fails_in_binary64 :
  let p := {| xPct := 0.1; yPct := 1 - 0.1; wPct := 0.3; hPct := 0.1 |}%float in
  (x (normalizeCoordinates p 3 842) / 3 <> xPct p
   /\ y (normalizeCoordinates p 3 842) <> 0)%float.
Proof.
  split; float_discriminate.
Qed.

(** C2 (amended).  Read in exact arithmetic, for all fractions and any
    positive page dimensions: x / W = xPct and (y + height) / H =
    1 - yPct; yPct = hPct = 0 gives y = H, and yPct = 1 - hPct gives
    y = 0; each output moves linearly with each fraction (x and width
    by d * W when xPct, wPct grow by d; height by d * H and y by
    - d * H when hPct grows by d; y by - d * H when yPct grows by d;
    no output moves otherwise).  In binary64 these hold up to rounding
    only; exactly, yPct = hPct = 0 gives y = H for every H. *)
Theorem normalizeCoordinates_exact_arithmetic :
  (forall (a b c e W H : Q),
      0 < W -> 0 < H ->
      let r := normalizeCoordinates
                 {| xPct := a; yPct := b; wPct := c; hPct := e |} W H in
      x r / W == a
      /\ (y r + height r) / H == 1 - b
      /\ (b == 0 -> e == 0 -> y r == H)
      /\ (b == 1 - e -> y r == 0)
      /\ (forall d,
             let rx := normalizeCoordinates
                         {| xPct := a + d; yPct := b; wPct := c; hPct := e |}
                         W H in
             let ry := normalizeCoordinates
                         {| xPct := a; yPct := b + d; wPct := c; hPct := e |}
                         W H in
             let rw := normalizeCoordinates
                         {| xPct := a; yPct := b; wPct := c + d; hPct := e |}
                         W H in
             let rh := normalizeCoordinates
                         {| xPct := a; yPct := b; wPct := c; hPct := e + d |}
                         W H in
             (x rx == x r + d * W /\ y rx == y r
              /\ width rx == width r /\ height rx == height r)
             /\ (x ry == x r /\ y ry == y r - d * H
                 /\ width ry == width r /\ height ry == height r)
             /\ (x rw == x r /\ y rw == y r
                 /\ width rw == width r + d * W /\ height rw == height r)
             /\ (x rh == x r /\ y rh == y r - d * H
                 /\ width rh == width r /\ height rh == height r + d * H)))%Q
  /\ (forall (a c W H : float),
         y (normalizeCoordinates
              {| xPct := a; yPct := 0; wPct := c; hPct := 0 |} W H) = H)%float.
Proof.
  split.
  - intros a b c e W H HW HH r.
    assert (HW0 : ~ (W == 0)%Q) by (intro E; rewrite E in HW; discriminate HW).
    assert (HH0 : ~ (H == 0)%Q) by (intro E; rewrite E in HH; discriminate HH).
    subst r; cbn [normalizeCoordinates x y width height xPct yPct wPct hPct
                    Q_Arith one sub mul].
    split; [ field; assumption | ].
    split; [ field; assumption | ].
    split; [ intros Hb He; rewrite Hb, He; ring | ].
    split; [ intros Hb; rewrite Hb; ring | ].
    intro d. cbn zeta.
    cbn [normalizeCoordinates x y width height xPct yPct wPct hPct
           Q_Arith one sub mul].
    repeat split; try reflexivity; ring.
  - intros a c W H.
    cbn [normalizeCoordinates y yPct hPct float_Arith one sub mul].
    change (1 - 0 - 0)%float with 1%float.
    apply float_mul_1_l.
Qed.

(** C2: the exact reading at the scenario, on the A4 page. *)
Lemma normalizeCoordinates_exact_arithmetic_witness :
  (0 < 595 /\ 0 < 842
   /\ x (normalizeCoordinates scenarioQ 595 842) / 595 == 1 # 10)%Q.
Proof.
  split; [ reflexivity | split; [ reflexivity | ] ].
  exact (proj1 (proj1 normalizeCoordinates_exact_arithmetic
                  (1 # 10) (1 # 10) (3 # 10) (5 # 100) 595 842
                  eq_refl eq_refl)%Q).
Defined.

(* ------------------------------------------------------------------ *)
(** ** Pages and drawing *)

Lemma element_getPages (pdfDoc : PDFDocument) (i : N) (ref : PageRef) :
  element (getPages pdfDoc) i = Some ref ->
  ref = N.to_nat i /\ (ref < List.length (docPages pdfDoc))%nat.
Proof.
  unfold element, getPages. rewrite length_seq.
  destruct (N.ltb_spec i (N.of_nat (List.length (docPages pdfDoc))));
    [ | discriminate ].
  rewrite nth_error_seq.
  destruct (Nat.ltb_spec (N.to_nat i) (List.length (docPages pdfDoc)));
    [ | discriminate ].
  intros [= <-]. split; [ reflexivity | assumption ].
Qed.

(** Whatever [pages[key]] finds is a page of the document. *)
Lemma resolved_page_is_live (pdfDoc : PDFDocument) (key : JSValue)
    (ref : PageRef) :
  elementAt (getPages pdfDoc) key = Some ref ->
  exists p, nth_error (docPages pdfDoc) ref = Some p.
Proof.
  intro H.
  assert (Hlt : (ref < List.length (docPages pdfDoc))%nat).
  { destruct key; simpl in H; try discriminate.
    - destruct (arrayIndexOfNumber n); [ | discriminate ].
      now apply element_getPages in H.
    - destruct (arrayIndexOfString s); [ | discriminate ].
      now apply element_getPages in H. }
  apply nth_error_Some in Hlt.
  destruct (nth_error (docPages pdfDoc) ref) as [p | ]; [ | contradiction ].
  now exists p.
Qed.

Lemma getSize_live (pdfDoc : PDFDocument) (ref : PageRef) (p : PDFPage) :
  nth_error (docPages pdfDoc) ref = Some p ->
  getSize pdfDoc ref = Ok (pageWidth p, pageHeight p).
Proof. unfold getSize. now intros ->. Qed.

Lemma nth_error_updateNth {A : Type} (l : list A) (i : nat) (f : A -> A)
    (a : A) :
  nth_error l i = Some a -> nth_error (updateNth l i f) i = Some (f a).
Proof.
  revert i. induction l as [ | b l IH]; intros [ | i]; simpl;
    try discriminate.
  - now intros [= ->].
  - apply IH.
Qed.

Lemma length_updateNth {A : Type} (l : list A) (i : nat) (f : A -> A) :
  List.length (updateNth l i f) = List.length l.
Proof.
  revert i. induction l as [ | b l IH]; intros [ | i]; simpl; auto.
Qed.

(** Drawing adds one call to the page and leaves the page array as it is. *)
Lemma drawn_after_draw (pdfDoc : PDFDocument) (ref : PageRef) (p : PDFPage)
    (op : DrawOp) :
  nth_error (docPages pdfDoc) ref = Some p ->
  exists p', nth_error (docPages (draw pdfDoc ref op)) ref = Some p'
             /\ drawn p' = drawn p ++ [op]
             /\ pageWidth p' = pageWidth p /\ pageHeight p' = pageHeight p.
Proof.
  intro H. unfold draw; simpl.
  eexists. split; [ apply nth_error_updateNth, H | ]. simpl. auto.
Qed.

Lemma getPages_draw (pdfDoc : PDFDocument) (ref : PageRef) (op : DrawOp) :
  getPages (draw pdfDoc ref op) = getPages pdfDoc.
Proof. unfold getPages, draw; simpl. now rewrite length_updateNth. Qed.

(* ------------------------------------------------------------------ *)
(** ** Type tests *)

Lemma strictEqString_true (v : JSValue) (lit : string) :
  strictEqString v lit = true -> v = JSString lit.
Proof.
  destruct v; simpl; try discriminate.
  intro H. apply String.eqb_eq in H. now subst.
Qed.

Lemma isFieldType_false (t : JSValue) :
  isFieldType t = false ->
  strictEqString t "signature" = false /\ strictEqString t "text" = false
  /\ strictEqString t "date" = false /\ strictEqString t "image" = false
  /\ strictEqString t "radio" = false.
Proof.
  unfold isFieldType. intro H.
  repeat (apply orb_false_iff in H; destruct H as [H ?]). auto.
Qed.

(* ------------------------------------------------------------------ *)
(** ** The loop *)

Section Loop.

Variable rt : Runtime.

(** A placement whose page number is at or beyond the page count is
    passed over. *)
Lemma injectLoop_beyond (pdfDoc : PDFDocument) (pages : list PageRef)
    (font : PDFFont) (field : Field) (rest : list Field) :
  JSge rt (JSor (pageNumber field) (JSNumber 0)) (lengthOf pages) = true ->
  injectLoop rt pdfDoc pages font (field :: rest)
  = injectLoop rt pdfDoc pages font rest.
Proof. simpl. now intros ->. Qed.

(** A placement that is passed over, or resolves to a page and leaves
    the document as it was, does not show in the rest of the batch. *)
Lemma injectLoop_noop (pdfDoc : PDFDocument) (pages : list PageRef)
    (font : PDFFont) (field : Field) (rest : list Field) :
  JSge rt (JSor (pageNumber field) (JSNumber 0)) (lengthOf pages) = true
  \/ elementAt pages (JSor (pageNumber field) (JSNumber 0)) <> None ->
  (forall page,
      elementAt pages (JSor (pageNumber field) (JSNumber 0)) = Some page ->
      injectField rt pdfDoc (Some page) field font = Ok pdfDoc) ->
  injectLoop rt pdfDoc pages font (field :: rest)
  = injectLoop rt pdfDoc pages font rest.
Proof.
  intros Hpage Hnoop. simpl.
  destruct (JSge rt _ _); [ reflexivity | ].
  destruct Hpage as [Hge | Hsome]; [ discriminate | ].
  destruct (elementAt pages _) as [page | ]; [ | contradiction ].
  now rewrite (Hnoop page eq_refl).
Qed.

End Loop.

(* ------------------------------------------------------------------ *)
(** ** Rendering by field type *)

(** C3, as the specification states it, fails: a placement of type
    "checkbox" is not reported as an error.  [injectField] returns
    normally, the run completes and nothing is written to the error
    stream. *)
Lemma unknown_type_is_not_rejected :
  let field := mkField "checkbox" (JSNumber 0) (JSString "checked") in
  isFieldType (type field) = false
  /\ injectField sampleRuntime sampleDoc (Some O) field sampleFont
     = Ok sampleDoc
  /\ snd (injectFields sampleRuntime "uploads/a1" "a.pdf" [field]
            "output/signed-a1.pdf" sampleWorld)
     = Ok "output/signed-a1.pdf"%string
  /\ console (fst (injectFields sampleRuntime "uploads/a1" "a.pdf" [field]
                     "output/signed-a1.pdf" sampleWorld))
     = auditTrail "11563381" "0e20b778"
         ++ [ConsoleLog "[DB] Audit log saved for a.pdf"].
Proof.
  vm_compute. repeat split.
Qed.

(** C3 (amended).  A placement whose type is not one of signature,
    text, date, image, radio, and whose page number is at or beyond the
    page count or resolves to a page, draws nothing and raises no
    error: [injectField] returns the document as it received it, and
    the batch goes on as if the placement were not in the list. *)
Theorem unknown_type_draws_nothing :
  forall (rt : Runtime) (pdfDoc : PDFDocument) (font : PDFFont)
         (field : Field) (rest : list Field),
    isFieldType (type field) = false ->
    JSge rt (JSor (pageNumber field) (JSNumber 0))
      (lengthOf (getPages pdfDoc)) = true
    \/ elementAt (getPages pdfDoc) (JSor (pageNumber field) (JSNumber 0))
       <> None ->
    (forall page,
        elementAt (getPages pdfDoc) (JSor (pageNumber field) (JSNumber 0))
          = Some page ->
        injectField rt pdfDoc (Some page) field font = Ok pdfDoc)
    /\ injectLoop rt pdfDoc (getPages pdfDoc) font (field :: rest)
       = injectLoop rt pdfDoc (getPages pdfDoc) font rest.
Proof.
  intros rt pdfDoc font field rest Htype Hpage.
  assert (Hnoop : forall page,
             elementAt (getPages pdfDoc)
               (JSor (pageNumber field) (JSNumber 0)) = Some page ->
             injectField rt pdfDoc (Some page) field font = Ok pdfDoc).
  { intros page Hres.
    destruct (resolved_page_is_live _ _ _ Hres) as [p Hp].
    apply isFieldType_false in Htype.
    destruct Htype as (Hs & Ht & Hd & Hi & Hr).
    unfold injectField. rewrite (getSize_live _ _ _ Hp). simpl bind.
    now rewrite Hs, Ht, Hd, Hi, Hr. }
  split; [ exact Hnoop | ].
  now apply injectLoop_noop.
Qed.

(** C3: the amended statement at the "checkbox" placement. *)
Lemma unknown_type_draws_nothing_witness :
  let field := mkField "checkbox" (JSNumber 0) (JSString "checked") in
  injectLoop sampleRuntime sampleDoc (getPages sampleDoc) sampleFont
    [field; field]
  = injectLoop sampleRuntime sampleDoc (getPages sampleDoc) sampleFont
      [field].
Proof.
  refine (proj2 (unknown_type_draws_nothing sampleRuntime sampleDoc
                   sampleFont
                   (mkField "checkbox" (JSNumber 0) (JSString "checked"))
                   _ _ _)).
  - reflexivity.
  - right. vm_compute. discriminate.
Defined.

(** C6.  A radio placement on a page of the document always makes the
    outline call, [drawRectangle] at the normalized box, whatever its
    value; it then makes the marker call, [drawCircle] centred at
    (x + width / 2, y + height / 2), exactly when its value is truthy;
    it makes no other call.  When pdf-lib accepts the calls, the page's
    drawing calls grow by the outline alone, or by the outline followed
    by the marker. *)
Theorem radio_outline_and_marker :
  forall (rt : Runtime) (pdfDoc : PDFDocument) (page : PageRef)
         (p : PDFPage) (field : Field) (font : PDFFont),
    type field = JSString "radio" ->
    nth_error (docPages pdfDoc) page = Some p ->
    let box := normalizeCoordinates field (pageWidth p) (pageHeight p) in
    let outline := DrawRectangle box (rgb 0.1 0.4 0.8) 1 0.1 in
    let marker :=
      DrawCircle (x box + width box / 2) (y box + height box / 2)
        (width box / 4) (rgb 0 0 1) 1 (rgb 0 0 0.8) (rgb 0 0 1) in
    injectField rt pdfDoc (Some page) field font
    = (let* outlined := drawCall rt pdfDoc page outline in
       if ToBoolean (value field) then drawCall rt outlined page marker
       else Ok outlined)
    /\ (rejects rt outline = None ->
        (ToBoolean (value field) = true -> rejects rt marker = None) ->
        exists pdfDoc' p',
          injectField rt pdfDoc (Some page) field font = Ok pdfDoc'
          /\ nth_error (docPages pdfDoc') page = Some p'
          /\ drawn p' = drawn p
                          ++ outline
                               :: (if ToBoolean (value field) then [marker]
                                   else [])).
Proof.
  intros rt pdfDoc page p field font Htype Hp box outline marker.
  assert (Hcalls :
            injectField rt pdfDoc (Some page) field font
            = (let* outlined := drawCall rt pdfDoc page outline in
               if ToBoolean (value field)
               then drawCall rt outlined page marker
               else Ok outlined)).
  { unfold injectField. rewrite (getSize_live _ _ _ Hp). simpl bind.
    rewrite Htype. cbn [strictEqString String.eqb Ascii.eqb Bool.eqb
                          orb andb fst snd].
    fold box. fold outline.
    destruct (drawCall rt pdfDoc page outline) as [outlined | error];
      cbn [bind]; [ | reflexivity ].
    destruct (ToBoolean (value field)); reflexivity. }
  split; [ exact Hcalls | ].
  intros Houtline Hmarker. rewrite Hcalls.
  unfold drawCall at 1. rewrite Houtline. cbn [bind].
  destruct (drawn_after_draw pdfDoc page p outline Hp)
    as (p1 & Hp1 & Hdrawn1 & _ & _).
  destruct (ToBoolean (value field)).
  - unfold drawCall. rewrite (Hmarker eq_refl).
    destruct (drawn_after_draw (draw pdfDoc page outline) page p1 marker Hp1)
      as (p2 & Hp2 & Hdrawn2 & _ & _).
    exists (draw (draw pdfDoc page outline) page marker), p2.
    repeat split; [ exact Hp2 | ].
    rewrite Hdrawn2, Hdrawn1, <- app_assoc. reflexivity.
  - exists (draw pdfDoc page outline), p1.
    repeat split; assumption.
Qed.

(** C6: a checked radio on the sample page. *)
Lemma radio_outline_and_marker_witness :
  exists pdfDoc' p',
    injectField sampleRuntime sampleDoc (Some O)
      (mkField "radio" (JSNumber 0) (JSString "checked")) sampleFont
    = Ok pdfDoc'
    /\ nth_error (docPages pdfDoc') O = Some p'
    /\ List.length (drawn p') = 2%nat.
Proof.
  destruct (proj2 (radio_outline_and_marker sampleRuntime sampleDoc O blankA4
                     (mkField "radio" (JSNumber 0) (JSString "checked"))
                     sampleFont eq_refl eq_refl)
              eq_refl (fun _ => eq_refl))
    as (pdfDoc' & p' & Hrun & Hp' & Hdrawn).
  exists pdfDoc', p'. repeat split; try assumption.
  rewrite Hdrawn. reflexivity.
Defined.

(* ------------------------------------------------------------------ *)
(** ** Signature and image values *)

(** When [parseBase64Image] answers [null]. *)
Lemma parseBase64Image_null (rt : Runtime) (v : JSValue) :
  ToBoolean v = false
  \/ (exists s, v = JSString s
                /\ (startsWith s "data:" = false
                    \/ List.length (split s ";base64,") <> 2%nat)) ->
  parseBase64Image rt v = Ok None.
Proof.
  unfold parseBase64Image.
  intros [Hfalsy | (s & -> & Hs)].
  - now rewrite Hfalsy.
  - destruct (ToBoolean (JSString s)); [ | reflexivity ]. cbn [negb].
    destruct (startsWith s "data:"); cbn [negb].
    + destruct Hs as [Hs | Hs]; [ discriminate | ].
      apply Nat.eqb_neq in Hs. now rewrite Hs.
    + reflexivity.
Qed.

(** C5, as the specification states it, fails: a signature whose
    payload decodes to bytes that are no PNG ("AAAA" is three zero
    bytes) makes the embedding throw, the run ends in "PDF injection
    failed" (followed by "undefined": the PNG parser throws a bare
    string), the text placement after it is never drawn and no output
    file is written. *)
Lemma bad_image_bytes_abort_the_run :
  let bad := mkField "signature" (JSNumber 0)
               (JSString "data:image/png;base64,AAAA") in
  let good := mkField "text" (JSNumber 0) (JSString "hello") in
  parseBase64Image sampleRuntime (value bad)
  = Ok (Some {| buffer := [Byte.x00; Byte.x00; Byte.x00];
                mime := Some "image/png"%string |})
  /\ snd (injectFields sampleRuntime "uploads/a1" "a.pdf" [bad; good]
            "output/signed-a1.pdf" sampleWorld)
     = Throw "PDF injection failed: undefined"
  /\ files (fst (injectFields sampleRuntime "uploads/a1" "a.pdf" [bad; good]
                   "output/signed-a1.pdf" sampleWorld))
       "output/signed-a1.pdf" = None.
Proof.
  vm_compute. repeat split.
Qed.

(** C5 (amended).  A signature or image placement whose value is
    absent or empty, or is a string that does not start with "data:"
    or does not split into exactly two parts on ";base64,", or whose
    declared media type is none of image/png, image/jpeg, image/jpg,
    is skipped: on the page it resolves to, [injectField] returns the
    document untouched, and (its page number being at or beyond the
    page count or resolving to a page) the batch goes on with the
    remaining placements as if the placement were not in the list. *)
Theorem unusable_image_value_is_skipped :
  forall (rt : Runtime) (pdfDoc : PDFDocument) (font : PDFFont)
         (field : Field) (rest : list Field),
    strictEqString (type field) "signature"
    || strictEqString (type field) "image" = true ->
    (ToBoolean (value field) = false
     \/ (exists s, value field = JSString s
                   /\ (startsWith s "data:" = false
                       \/ List.length (split s ";base64,") <> 2%nat))
     \/ (exists imageData,
            parseBase64Image rt (value field) = Ok (Some imageData)
            /\ isRaster (mime imageData) = false)) ->
    JSge rt (JSor (pageNumber field) (JSNumber 0))
      (lengthOf (getPages pdfDoc)) = true
    \/ elementAt (getPages pdfDoc) (JSor (pageNumber field) (JSNumber 0))
       <> None ->
    (forall page,
        elementAt (getPages pdfDoc) (JSor (pageNumber field) (JSNumber 0))
          = Some page ->
        injectField rt pdfDoc (Some page) field font = Ok pdfDoc)
    /\ injectLoop rt pdfDoc (getPages pdfDoc) font (field :: rest)
       = injectLoop rt pdfDoc (getPages pdfDoc) font rest.
Proof.
  intros rt pdfDoc font field rest Htype Hvalue Hpage.
  assert (Hradio : strictEqString (type field) "radio" = false).
  { apply orb_true_iff in Htype.
    destruct Htype as [H | H]; apply strictEqString_true in H;
      rewrite H; reflexivity. }
  assert (Hnoop : forall page,
             elementAt (getPages pdfDoc)
               (JSor (pageNumber field) (JSNumber 0)) = Some page ->
             injectField rt pdfDoc (Some page) field font = Ok pdfDoc).
  { intros page Hres.
    destruct (resolved_page_is_live _ _ _ Hres) as [p Hp].
    unfold injectField. rewrite (getSize_live _ _ _ Hp). simpl bind.
    rewrite Hradio, Htype.
    destruct Hvalue as [Hfalsy | [Hstring | (imageData & Hparse & Hmime)]].
    - rewrite (parseBase64Image_null rt _ (or_introl Hfalsy)). reflexivity.
    - rewrite (parseBase64Image_null rt _ (or_intror Hstring)). reflexivity.
    - rewrite Hparse. simpl bind.
      unfold isRaster in Hmime.
      apply orb_false_iff in Hmime. destruct Hmime as [Hmime Hjpg].
      apply orb_false_iff in Hmime. destruct Hmime as [Hpng Hjpeg].
      now rewrite Hpng, Hjpeg, Hjpg. }
  split; [ exact Hnoop | ].
  now apply injectLoop_noop.
Qed.

(** C5: the amended statement at a GIF signature followed by a text
    placement. *)
Lemma unusable_image_value_is_skipped_witness :
  let gif := mkField "signature" (JSNumber 0)
               (JSString "data:image/gif;base64,R0lGODlh") in
  let good := mkField "text" (JSNumber 0) (JSString "hello") in
  injectLoop sampleRuntime sampleDoc (getPages sampleDoc) sampleFont
    [gif; good]
  = injectLoop sampleRuntime sampleDoc (getPages sampleDoc) sampleFont
      [good].
Proof.
  refine (proj2 (unusable_image_value_is_skipped sampleRuntime sampleDoc
                   sampleFont
                   (mkField "signature" (JSNumber 0)
                      (JSString "data:image/gif;base64,R0lGODlh"))
                   _ eq_refl _ _)).
  - right; right. eexists. split; vm_compute; reflexivity.
  - right. vm_compute. discriminate.
Defined.

(* ------------------------------------------------------------------ *)
(** ** Empty values *)

(** C10.  On a page of the document: a text or date placement whose
    value is the empty string draws nothing, as with [null] or no
    value; a radio placement whose value is the empty string makes its
    outline call and no other, as with [null] or no value; a signature
    or image placement whose value is a string that does not start with
    "data:" (the empty string included) draws nothing. *)
Theorem empty_value_draws_nothing :
  forall (rt : Runtime) (pdfDoc : PDFDocument) (page : PageRef)
         (p : PDFPage) (field : Field) (font : PDFFont),
    nth_error (docPages pdfDoc) page = Some p ->
    let run v := injectField rt pdfDoc (Some page) (withValue field v) font in
    (strictEqString (type field) "text"
     || strictEqString (type field) "date" = true ->
     run (JSString "") = Ok pdfDoc
     /\ run JSNull = Ok pdfDoc /\ run JSUndefined = Ok pdfDoc)
    /\ (strictEqString (type field) "radio" = true ->
        let outlined :=
          drawCall rt pdfDoc page
            (DrawRectangle
               (normalizeCoordinates field (pageWidth p) (pageHeight p))
               (rgb 0.1 0.4 0.8) 1 0.1) in
        run (JSString "") = outlined
        /\ run JSNull = outlined /\ run JSUndefined = outlined)
    /\ (strictEqString (type field) "signature"
        || strictEqString (type field) "image" = true ->
        run (JSString "") = Ok pdfDoc
        /\ forall s, startsWith s "data:" = false ->
                     run (JSString s) = Ok pdfDoc).
Proof.
  intros rt pdfDoc page p field font Hp run.
  assert (Hrun : forall v,
             run v
             = injectField rt pdfDoc (Some page) (withValue field v) font)
    by reflexivity.
  split; [ | split ].
  - intro Htype.
    assert (Hother : strictEqString (type field) "radio" = false
                     /\ strictEqString (type field) "signature" = false
                     /\ strictEqString (type field) "image" = false).
    { apply orb_true_iff in Htype.
      destruct Htype as [H | H]; apply strictEqString_true in H;
        rewrite H; repeat split. }
    destruct Hother as (Hr & Hs & Hi).
    repeat split; rewrite Hrun; unfold injectField;
      rewrite (getSize_live _ _ _ Hp); simpl bind;
      cbn [withValue type value]; rewrite Hr, Hs, Hi, Htype; reflexivity.
  - intros Htype outlined.
    apply strictEqString_true in Htype.
    repeat split; rewrite Hrun; unfold injectField;
      rewrite (getSize_live _ _ _ Hp); simpl bind;
      cbn [withValue type value]; rewrite Htype;
      cbn [strictEqString String.eqb Ascii.eqb Bool.eqb orb andb fst snd
             fractions];
      fold outlined; destruct outlined; reflexivity.
  - intro Htype.
    assert (Hradio : strictEqString (type field) "radio" = false).
    { apply orb_true_iff in Htype.
      destruct Htype as [H | H]; apply strictEqString_true in H;
        rewrite H; reflexivity. }
    assert (Hskip : forall s, startsWith s "data:" = false ->
                              run (JSString s) = Ok pdfDoc).
    { intros s Hs. rewrite Hrun. unfold injectField.
      rewrite (getSize_live _ _ _ Hp). simpl bind.
      cbn [withValue type value]. rewrite Hradio, Htype.
      rewrite (parseBase64Image_null rt (JSString s)); [ reflexivity | ].
      right. exists s. auto. }
    split; [ apply Hskip; reflexivity | exact Hskip ].
Qed.

(** C10: an empty text value on the sample page. *)
Lemma empty_value_draws_nothing_witness :
  injectField sampleRuntime sampleDoc (Some O)
    (withValue (mkField "text" (JSNumber 0) (JSString "hello"))
       (JSString "")) sampleFont
  = Ok sampleDoc.
Proof.
  exact (proj1 (proj1 (empty_value_draws_nothing sampleRuntime sampleDoc O
                         blankA4
                         (mkField "text" (JSNumber 0) (JSString "hello"))
                         sampleFont eq_refl)
                  eq_refl)).
Defined.

(* ------------------------------------------------------------------ *)
(** ** Page numbers *)

Lemma geInteger_zero (n : N) : geInteger 0 n = (n =? 0)%N.
Proof. reflexivity. Qed.

Lemma arrayIndexOfNumber_zero : arrayIndexOfNumber 0 = Some 0%N.
Proof. reflexivity. Qed.

(** The sign, mantissa and exponent of a number below zero. *)
Lemma negative_float (n : float) :
  PrimFloat.ltb n 0 = true ->
  Prim2SF n = S754_infinity true
  \/ exists m e, Prim2SF n = S754_finite true m e.
Proof.
  rewrite ltb_spec. change (Prim2SF 0) with (S754_zero false).
  destruct (Prim2SF n) as [s | s | | s m e]; unfold SFltb; simpl;
    try discriminate.
  - destruct s; [ now left | discriminate ].
  - destruct s; [ right; now exists m, e | discriminate ].
Qed.

Lemma negative_float_truthy (n : float) :
  PrimFloat.ltb n 0 = true -> ToBoolean (JSNumber n) = true.
Proof.
  intro Hneg. unfold ToBoolean, PrimFloat.is_nan.
  rewrite !FloatAxioms.eqb_spec. change (Prim2SF 0) with (S754_zero false).
  destruct (negative_float n Hneg) as [-> | (m & e & ->)].
  - reflexivity.
  - unfold SFeqb, SFcompare.
    now rewrite Z.compare_refl, Pos.compare_cont_refl.
Qed.

(** Every page number below zero passes the range check, finds no page
    and makes [injectField] throw: the loop stops there. *)
Lemma negative_pageNumber_throws (rt : Runtime) (pdfDoc : PDFDocument)
    (pages : list PageRef) (font : PDFFont) (field : Field)
    (rest : list Field) (n : float) :
  pageNumber field = JSNumber n ->
  PrimFloat.ltb n 0 = true ->
  injectLoop rt pdfDoc pages font (field :: rest)
  = Throw "Cannot read properties of undefined (reading 'getSize')".
Proof.
  intros Hfield Hneg. simpl. rewrite Hfield.
  unfold JSor. rewrite (negative_float_truthy n Hneg).
  unfold JSge, ToNumber, geInteger, elementAt, arrayIndexOfNumber.
  destruct (negative_float n Hneg) as [-> | (m & e & ->)]; reflexivity.
Qed.

(** C4 at page number -1: the placement is not skipped.  The range
    check lets it through, [pages[-1]] is [undefined], [injectField]
    throws on [page.getSize()], and the run ends in "PDF injection
    failed" with no output file, although the text placement before it
    had been drawn. *)
Theorem negative_pageNumber_aborts_the_run :
  let good := mkField "text" (JSNumber 0) (JSString "hello") in
  let stray := mkField "text" (JSNumber (-1)) (JSString "hello") in
  snd (injectFields sampleRuntime "uploads/a1" "a.pdf" [good; stray]
         "output/signed-a1.pdf" sampleWorld)
  = Throw "PDF injection failed: Cannot read properties of undefined (reading 'getSize')"
  /\ files (fst (injectFields sampleRuntime "uploads/a1" "a.pdf"
                   [good; stray] "output/signed-a1.pdf" sampleWorld))
       "output/signed-a1.pdf" = None
  /\ snd (injectFields sampleRuntime "uploads/a1" "a.pdf" [good]
            "output/signed-a1.pdf" sampleWorld)
     = Ok "output/signed-a1.pdf"%string.
Proof.
  vm_compute. repeat split.
Qed.

(** C9.  A placement whose [pageNumber] is absent, [null] or otherwise
    falsy resolves to page index 0 and, in a document with at least one
    page, is injected on the first page; whatever other properties the
    placement carries ([pageIndex] among them) play no part. *)
Theorem falsy_pageNumber_is_first_page :
  forall (rt : Runtime) (pdfDoc : PDFDocument) (font : PDFFont)
         (field : Field) (rest : list Field),
    ToBoolean (pageNumber field) = false ->
    docPages pdfDoc <> [] ->
    JSor (pageNumber field) (JSNumber 0) = JSNumber 0
    /\ elementAt (getPages pdfDoc) (JSNumber 0) = Some O
    /\ injectLoop rt pdfDoc (getPages pdfDoc) font (field :: rest)
       = (let* pdfDoc' := injectField rt pdfDoc (Some O) field font in
          injectLoop rt pdfDoc' (getPages pdfDoc) font rest).
Proof.
  intros rt pdfDoc font field rest Hfalsy Hpages.
  assert (Hor : JSor (pageNumber field) (JSNumber 0) = JSNumber 0)
    by (unfold JSor; now rewrite Hfalsy).
  assert (Hat : elementAt (getPages pdfDoc) (JSNumber 0) = Some O).
  { unfold elementAt. rewrite arrayIndexOfNumber_zero.
    unfold getPages. destruct (docPages pdfDoc); [ contradiction | ].
    reflexivity. }
  repeat split; try assumption.
  simpl. rewrite Hor, Hat.
  unfold JSge, ToNumber. rewrite geInteger_zero.
  unfold lengthOf, getPages. rewrite length_seq.
  destruct (docPages pdfDoc); [ contradiction | reflexivity ].
Qed.

(** C9: a placement that names its page [pageIndex: 3] and has no
    [pageNumber] is drawn on the first page. *)
Lemma falsy_pageNumber_is_first_page_witness :
  let field :=
    {| type := JSString "text"; pageNumber := JSUndefined;
       value := JSString "hello"; fractions := scenario;
       others := [("pageIndex"%string, JSNumber 3)] |} in
  injectLoop sampleRuntime sampleDoc (getPages sampleDoc) sampleFont [field]
  = (let* pdfDoc' := injectField sampleRuntime sampleDoc (Some O) field
                       sampleFont in
     Ok pdfDoc').
Proof.
  refine (proj2 (proj2 (falsy_pageNumber_is_first_page sampleRuntime
                          sampleDoc sampleFont
                          {| type := JSString "text";
                             pageNumber := JSUndefined;
                             value := JSString "hello";
                             fractions := scenario;
                             others := [("pageIndex"%string, JSNumber 3)] |}
                          [] eq_refl _))).
  discriminate.
Defined.

(* ------------------------------------------------------------------ *)
(** ** The whole run *)

Section Run.

Variable rt : Runtime.

(** [injectFields], stage by stage. *)
Lemma injectFields_stages (pdfPath pdfName : string) (fields : list Field)
    (outputPath : string) (w : World) :
  injectFields rt pdfPath pdfName fields outputPath w
  = match files w pdfPath with
    | None =>
        failedRun w ("ENOENT: no such file or directory, open '"
                       ++ pdfPath ++ "'")
    | Some bytes =>
        match signedBytes rt bytes fields with
        | Throw message => failedRun w message
        | Ok pdfBytes =>
            if writable w outputPath
            then (completedRun w pdfName outputPath pdfBytes
                    (sha256hex rt bytes) (sha256hex rt pdfBytes) fields,
                  Ok outputPath)
            else failedRun w ("ENOENT: no such file or directory, open '"
                                ++ outputPath ++ "'")
        end
    end.
Proof.
  unfold injectFields, signedBytes, tryCatch at 1, bindM at 1, readFile.
  destruct (files w pdfPath) as [bytes | ]; [ | reflexivity ].
  unfold bindM at 1, lift at 1.
  destruct (load rt (now rt) bytes) as [pdfDoc | message];
    [ | reflexivity ].
  unfold embedFont. cbn [bind fst snd].
  unfold bindM at 1, lift at 1.
  destruct (injectLoop rt _ _ _ fields) as [pdfDoc2 | message];
    [ | reflexivity ].
  cbn [bind]. unfold bindM at 1, lift at 1.
  destruct (save rt pdfDoc2) as [pdfBytes | message]; [ | reflexivity ].
  unfold bindM at 1, writeFile.
  destruct (writable w outputPath); [ | reflexivity ].
  unfold completedRun, auditTrail.
  unfold logAuditEntry, tryCatch, auditSave, consoleLog, consoleError, ret.
  unfold bindM. cbv beta.
  cbn [files writable console auditFault auditLog].
  repeat rewrite <- app_assoc. cbn [app].
  match goal with
  | |- context [auditFault w ?e] => destruct (auditFault w e)
  end; reflexivity.
Qed.

End Run.

(** A completed run reports the hashes it was given. *)
Lemma completedRun_reports (w : World) (pdfName outputPath : string)
    (pdfBytes : list Byte.byte) (original signed : string)
    (fields : list Field) :
  reportsHashes w
    (completedRun w pdfName outputPath pdfBytes original signed fields)
    original signed.
Proof.
  unfold reportsHashes, completedRun, logAuditEntry, tryCatch, auditSave,
    consoleLog, consoleError.
  unfold bindM. cbv beta. cbn [files writable console auditFault auditLog].
  match goal with
  | |- context [auditFault w ?e] => destruct (auditFault w e)
  end; cbn [fst console auditLog].
  - split.
    + eexists. rewrite <- app_assoc. reflexivity.
    + rewrite skipn_all. intros e [].
  - split.
    + eexists. rewrite <- app_assoc. reflexivity.
    + rewrite skipn_app, skipn_all, Nat.sub_diag. cbn [skipn app].
      intros e [<- | []]. split; reflexivity.
Qed.

Lemma completedRun_files (w : World) (pdfName outputPath : string)
    (pdfBytes : list Byte.byte) (original signed : string)
    (fields : list Field) :
  files (completedRun w pdfName outputPath pdfBytes original signed fields)
    outputPath = Some pdfBytes.
Proof.
  unfold completedRun, logAuditEntry, tryCatch, auditSave, consoleLog,
    consoleError.
  unfold bindM. cbv beta. cbn [files writable console auditFault auditLog].
  match goal with
  | |- context [auditFault w ?e] => destruct (auditFault w e)
  end; cbn [fst files]; now rewrite String.eqb_refl.
Qed.

(** C7, as the specification states it, fails in its first half: the
    same upload with the same placement list, run from the same world
    when the clock reads 1000 and again when it reads 2000, completes
    both times and reports the same original hash but two different
    signed hashes.  [PDFDocument.load] stamps the document with the
    time it reads, and the stamp is in the bytes that are saved and
    digested. *)
Lemma signed_hash_follows_the_clock :
  let fields := [mkField "radio" (JSNumber 0) (JSString "checked")] in
  let first :=
    injectFields (atTime sampleRuntime 1000) "uploads/a1" "a.pdf" fields
      "output/signed-a1.pdf" sampleWorld in
  let second :=
    injectFields (atTime sampleRuntime 2000) "uploads/a1" "a.pdf" fields
      "output/signed-a1.pdf" sampleWorld in
  snd first = Ok "output/signed-a1.pdf"%string
  /\ snd second = Ok "output/signed-a1.pdf"%string
  /\ console (fst first)
     = auditTrail "11563381" "17bd9d84"
         ++ [ConsoleLog "[DB] Audit log saved for a.pdf"]
  /\ console (fst second)
     = auditTrail "11563381" "17bd9aa0"
         ++ [ConsoleLog "[DB] Audit log saved for a.pdf"].
Proof.
  vm_compute. repeat split.
Qed.

(** C7 (amended).  The original hash is a function of the input bytes
    alone: two completed runs on the same bytes, whatever their
    placement lists, clocks, paths, document names and the state of the
    files, console and audit store, report the same original hash, the
    digest of those bytes.  The signed hash a run reports is the digest
    of the bytes that run wrote to its output file. *)
Theorem original_hash_is_of_the_input_alone :
  forall (rt : Runtime) (bytes : list Byte.byte) (time1 time2 : Z)
         (fields1 fields2 : list Field) (w1 w2 w1' w2' : World)
         (pdfPath1 pdfPath2 pdfName1 pdfName2 out1 out2 r1 r2 : string),
    files w1 pdfPath1 = Some bytes ->
    files w2 pdfPath2 = Some bytes ->
    injectFields (atTime rt time1) pdfPath1 pdfName1 fields1 out1 w1
    = (w1', Ok r1) ->
    injectFields (atTime rt time2) pdfPath2 pdfName2 fields2 out2 w2
    = (w2', Ok r2) ->
    exists written1 written2,
      files w1' out1 = Some written1
      /\ files w2' out2 = Some written2
      /\ reportsHashes w1 w1' (sha256hex rt bytes) (sha256hex rt written1)
      /\ reportsHashes w2 w2' (sha256hex rt bytes) (sha256hex rt written2).
Proof.
  intros rt bytes time1 time2 fields1 fields2 w1 w2 w1' w2'
         pdfPath1 pdfPath2 pdfName1 pdfName2 out1 out2 r1 r2
         Hfile1 Hfile2 Hrun1 Hrun2.
  assert (Hrun : forall time fields w w' pdfPath pdfName out r,
             files w pdfPath = Some bytes ->
             injectFields (atTime rt time) pdfPath pdfName fields out w
             = (w', Ok r) ->
             exists written,
               files w' out = Some written
               /\ reportsHashes w w' (sha256hex rt bytes)
                    (sha256hex rt written)).
  { intros time fields w w' pdfPath pdfName out r Hfile.
    rewrite injectFields_stages, Hfile.
    destruct (signedBytes (atTime rt time) bytes fields)
      as [pdfBytes | error]; [ | discriminate ].
    destruct (writable w out); [ | discriminate ].
    intros [= <- _]. exists pdfBytes. cbn [atTime sha256hex].
    split; [ apply completedRun_files | apply completedRun_reports ]. }
  destruct (Hrun _ _ _ _ _ _ _ _ Hfile1 Hrun1) as (written1 & Hw1 & Hrep1).
  destruct (Hrun _ _ _ _ _ _ _ _ Hfile2 Hrun2) as (written2 & Hw2 & Hrep2).
  exists written1, written2. auto.
Qed.

(** C7: the sample upload, run at two times with two placement lists. *)
Lemma original_hash_is_of_the_input_alone_witness :
  exists written1 written2,
    files (fst (injectFields (atTime sampleRuntime 1000) "uploads/a1" "a.pdf"
                  [mkField "radio" (JSNumber 0) (JSString "checked")]
                  "output/signed-a1.pdf" sampleWorld))
      "output/signed-a1.pdf" = Some written1
    /\ files (fst (injectFields (atTime sampleRuntime 2000) "uploads/a1"
                     "b.pdf" [] "output/signed-b1.pdf" sinkDownWorld))
         "output/signed-b1.pdf" = Some written2
    /\ reportsHashes sampleWorld
         (fst (injectFields (atTime sampleRuntime 1000) "uploads/a1" "a.pdf"
                 [mkField "radio" (JSNumber 0) (JSString "checked")]
                 "output/signed-a1.pdf" sampleWorld))
         (sha256hex sampleRuntime (bytesOfString "%PDF-1.7"))
         (sha256hex sampleRuntime written1)
    /\ reportsHashes sinkDownWorld
         (fst (injectFields (atTime sampleRuntime 2000) "uploads/a1" "b.pdf"
                 [] "output/signed-b1.pdf" sinkDownWorld))
         (sha256hex sampleRuntime (bytesOfString "%PDF-1.7"))
         (sha256hex sampleRuntime written2).
Proof.
  refine (original_hash_is_of_the_input_alone sampleRuntime
            (bytesOfString "%PDF-1.7") 1000 2000
            [mkField "radio" (JSNumber 0) (JSString "checked")] []
            sampleWorld sinkDownWorld _ _
            "uploads/a1" "uploads/a1" "a.pdf" "b.pdf"
            "output/signed-a1.pdf" "output/signed-b1.pdf"
            "output/signed-a1.pdf" "output/signed-b1.pdf"
            eq_refl eq_refl _ _)%string;
    rewrite injectFields_stages; reflexivity.
Defined.

(** C8.  The audit sink decides nothing about a run: under any two
    sinks the run returns the same result and leaves the same files.
    When the sink rejects the entry of a run that serialized and wrote
    its output, the run still returns the output path, the output file
    holds the signed bytes, nothing is added to the audit collection,
    and the rejection shows as one line on the error stream after the
    audit trail. *)
Theorem sink_failure_is_only_logged :
  forall (rt : Runtime) (pdfPath pdfName : string) (fields : list Field)
         (outputPath : string) (w : World),
    (forall fault1 fault2 : AuditEntry -> option string,
        let run1 := injectFields rt pdfPath pdfName fields outputPath
                      (withSink w fault1) in
        let run2 := injectFields rt pdfPath pdfName fields outputPath
                      (withSink w fault2) in
        snd run1 = snd run2 /\ files (fst run1) = files (fst run2))
    /\ (forall (message : string) (bytes pdfBytes : list Byte.byte),
           let run := injectFields rt pdfPath pdfName fields outputPath
                        (withSink w (fun _ => Some message)) in
           files w pdfPath = Some bytes ->
           signedBytes rt bytes fields = Ok pdfBytes ->
           writable w outputPath = true ->
           snd run = Ok outputPath
           /\ files (fst run) outputPath = Some pdfBytes
           /\ auditLog (fst run) = auditLog w
           /\ console (fst run)
              = console w
                  ++ auditTrail (sha256hex rt bytes) (sha256hex rt pdfBytes)
                  ++ [ConsoleError
                        ("[DB] Failed to save audit log: " ++ message)]).
Proof.
  intros rt pdfPath pdfName fields outputPath w. split.
  - intros fault1 fault2 run1 run2. subst run1 run2.
    rewrite !injectFields_stages.
    cbn [withSink files writable].
    destruct (files w pdfPath) as [bytes | ]; [ | split; reflexivity ].
    destruct (signedBytes rt bytes fields) as [pdfBytes | message];
      [ | split; reflexivity ].
    destruct (writable w outputPath); [ | split; reflexivity ].
    unfold completedRun, logAuditEntry, tryCatch, auditSave, consoleLog,
      consoleError.
    unfold bindM. cbv beta.
    cbn [withSink files writable console auditFault auditLog].
    destruct (fault1 _), (fault2 _); split; reflexivity.
  - intros message bytes pdfBytes run Hfile Hbytes Hwritable. subst run.
    rewrite injectFields_stages.
    cbn [withSink files writable]. rewrite Hfile, Hbytes, Hwritable.
    unfold completedRun, logAuditEntry, tryCatch, auditSave, consoleLog,
      consoleError.
    unfold bindM. cbv beta.
    cbn [withSink files writable console auditFault auditLog fst snd].
    rewrite String.eqb_refl, <- app_assoc. repeat split.
Qed.

(** C8: the sample upload with the audit store unreachable. *)
Lemma sink_failure_is_only_logged_witness :
  snd (injectFields sampleRuntime "uploads/a1" "a.pdf"
         [mkField "text" (JSNumber 0) (JSString "hello")]
         "output/signed-a1.pdf"
         (withSink sampleWorld (fun _ => Some "buffering timed out"%string)))
  = Ok "output/signed-a1.pdf"%string.
Proof.
  refine (proj1 (proj2 (sink_failure_is_only_logged sampleRuntime
                          "uploads/a1" "a.pdf"
                          [mkField "text" (JSNumber 0) (JSString "hello")]
                          "output/signed-a1.pdf" sampleWorld)
                   "buffering timed out"%string
                   (bytesOfString "%PDF-1.7") _ eq_refl _ eq_refl))%string.
  vm_compute. reflexivity.
Defined.

(* ================================================================== *)
(** * Further properties of the code *)

(* ------------------------------------------------------------------ *)
(** ** Splitting on a separator whose first character is known *)

Section Split.

Local Open Scope string_scope.

Variable c0 : ascii.
Variable sep' : string.

Let sep : string := String c0 sep'.

Lemma prefix_app (a b : string) : String.prefix a (a ++ b) = true.
Proof.
  induction a as [ | c a IH]; simpl; [ destruct b; reflexivity | ].
  destruct (ascii_dec c c) as [_ | Hne]; [ exact IH | contradiction ].
Qed.

Lemma prefix_other_head (c : ascii) (rest : string) :
  Ascii.eqb c0 c = false -> String.prefix sep (String c rest) = false.
Proof.
  intro Hne. simpl.
  destruct (ascii_dec c0 c) as [-> | _]; [ | reflexivity ].
  now rewrite Ascii.eqb_refl in Hne.
Qed.

Lemma append_snoc (acc : string) (c : ascii) (rest : string) :
  (acc ++ String c EmptyString) ++ rest = acc ++ String c rest.
Proof. induction acc as [ | d acc IH]; simpl; [ | rewrite IH ]; reflexivity. Qed.

Lemma append_empty (s : string) : s ++ EmptyString = s.
Proof. induction s as [ | c s IH]; simpl; [ | rewrite IH ]; reflexivity. Qed.

(** A string without the separator's first character is one piece. *)
Lemma splitFrom_absent (acc s : string) :
  hasChar c0 s = false -> splitFrom sep 0 acc s = [acc ++ s].
Proof.
  revert acc. induction s as [ | c s IH]; intros acc Hs.
  - simpl. now rewrite append_empty.
  - simpl in Hs. apply orb_false_iff in Hs. destruct Hs as [Hc Hs].
    cbn [splitFrom]. rewrite (prefix_other_head c s Hc).
    rewrite IH by assumption. now rewrite append_snoc.
Qed.

(** The characters of a matched separator are dropped. *)
Lemma splitFrom_skip (t acc b : string) :
  splitFrom sep (String.length t) acc (t ++ b) = splitFrom sep 0 acc b.
Proof.
  induction t as [ | c t IH]; [ reflexivity | ].
  simpl. exact IH.
Qed.

(** Up to the first separator: the piece before it, then the rest. *)
Lemma splitFrom_piece (acc a b : string) :
  hasChar c0 a = false ->
  splitFrom sep 0 acc (a ++ sep ++ b)
  = (acc ++ a) :: splitFrom sep 0 EmptyString b.
Proof.
  revert acc. induction a as [ | c a IH]; intros acc Ha.
  - rewrite append_empty.
    change (EmptyString ++ sep ++ b) with (String c0 (sep' ++ b)).
    cbn [splitFrom].
    change (String c0 (sep' ++ b)) with (sep ++ b).
    rewrite prefix_app.
    replace (String.length sep - 1)%nat with (String.length sep')
      by (simpl; lia).
    now rewrite splitFrom_skip.
  - simpl in Ha. apply orb_false_iff in Ha. destruct Ha as [Hc Ha].
    change (String c a ++ sep ++ b) with (String c (a ++ sep ++ b)).
    cbn [splitFrom]. rewrite (prefix_other_head c _ Hc).
    rewrite IH by assumption. now rewrite append_snoc.
Qed.

End Split.

(** Two pieces, three pieces. *)
Lemma split_two (c0 : ascii) (sep' a b : string) :
  hasChar c0 a = false -> hasChar c0 b = false ->
  split (a ++ String c0 sep' ++ b) (String c0 sep') = [a; b].
Proof.
  intros Ha Hb. unfold split.
  rewrite splitFrom_piece by assumption.
  now rewrite splitFrom_absent by assumption.
Qed.

Lemma split_three (c0 : ascii) (sep' a b c : string) :
  hasChar c0 a = false -> hasChar c0 b = false -> hasChar c0 c = false ->
  split (a ++ String c0 sep' ++ b ++ String c0 sep' ++ c) (String c0 sep')
  = [a; b; c].
Proof.
  intros Ha Hb Hc. unfold split.
  rewrite splitFrom_piece by assumption.
  rewrite splitFrom_piece by assumption.
  now rewrite splitFrom_absent by assumption.
Qed.

(* ------------------------------------------------------------------ *)
(** ** [parseBase64Image] *)

Lemma parse_data_uri (rt : Runtime) (m payload : string) :
  hasChar ";" m = false -> hasChar ":" m = false ->
  hasChar ";" payload = false ->
  parseBase64Image rt (JSString ("data:" ++ m ++ ";base64," ++ payload))
  = Ok (Some {| buffer := fromBase64 rt payload; mime := Some m |}).
Proof.
  intros Hm Hcolon Hpayload.
  assert (Hparts : split ("data:" ++ m ++ ";base64," ++ payload) ";base64,"
                   = [("data:" ++ m)%string; payload]).
  { change ("data:" ++ m ++ ";base64," ++ payload)%string
      with (("data:" ++ m) ++ String ";" "base64," ++ payload)%string.
    apply split_two; [ simpl; exact Hm | exact Hpayload ]. }
  assert (Hmime : split ("data:" ++ m) ":" = ["data"%string; m]).
  { change ("data:" ++ m)%string
      with ("data" ++ String ":" EmptyString ++ m)%string.
    apply split_two; [ reflexivity | exact Hcolon ]. }
  unfold parseBase64Image.
  change (ToBoolean (JSString ("data:" ++ m ++ ";base64," ++ payload)))
    with true.
  change (startsWith ("data:" ++ m ++ ";base64," ++ payload) "data:")
    with (String.prefix EmptyString (m ++ ";base64," ++ payload)).
  replace (String.prefix EmptyString (m ++ ";base64," ++ payload)) with true
    by (destruct (m ++ ";base64," ++ payload)%string; reflexivity).
  cbn [negb]. rewrite Hparts. cbn [List.length Nat.eqb negb nth].
  rewrite Hmime. reflexivity.
Qed.

(** X1.  A data URI ["data:" ++ m ++ ";base64," ++ payload], with no
    ';' or ':' in [m] and no ';' in [payload], parses to the media type
    [m] and the decoded bytes of [payload]. *)
Theorem parseBase64Image_reads_data_uri :
  forall (rt : Runtime) (m payload : string),
    hasChar ";" m = false -> hasChar ":" m = false ->
    hasChar ";" payload = false ->
    parseBase64Image rt (JSString ("data:" ++ m ++ ";base64," ++ payload))
    = Ok (Some {| buffer := fromBase64 rt payload; mime := Some m |}).
Proof.
  intros rt m payload Hm Hcolon Hpayload.
  assert (Hparts : split ("data:" ++ m ++ ";base64," ++ payload) ";base64,"
                   = [("data:" ++ m)%string; payload]).
  { change ("data:" ++ m ++ ";base64," ++ payload)%string
      with (("data:" ++ m) ++ String ";" "base64," ++ payload)%string.
    apply split_two; [ simpl; exact Hm | exact Hpayload ]. }
  assert (Hmime : split ("data:" ++ m) ":" = ["data"%string; m]).
  { change ("data:" ++ m)%string
      with ("data" ++ String ":" EmptyString ++ m)%string.
    apply split_two; [ reflexivity | exact Hcolon ]. }
  unfold parseBase64Image.
  change (ToBoolean (JSString ("data:" ++ m ++ ";base64," ++ payload)))
    with true.
  change (startsWith ("data:" ++ m ++ ";base64," ++ payload) "data:")
    with (String.prefix EmptyString (m ++ ";base64," ++ payload)).
  replace (String.prefix EmptyString (m ++ ";base64," ++ payload)) with true
    by (destruct (m ++ ";base64," ++ payload)%string; reflexivity).
  cbn [negb]. rewrite Hparts. cbn [List.length Nat.eqb negb nth].
  rewrite Hmime. reflexivity.
Qed.

(** X1: a PNG signature. *)
Lemma parseBase64Image_reads_data_uri_witness :
  parseBase64Image sampleRuntime
    (JSString ("data:" ++ "image/png" ++ ";base64," ++ "iVBORw0KGgo="))
  = Ok (Some {| buffer := fromBase64 sampleRuntime "iVBORw0KGgo=";
                mime := Some "image/png"%string |}).
Proof.
  exact (parseBase64Image_reads_data_uri sampleRuntime "image/png"
           "iVBORw0KGgo=" eq_refl eq_refl eq_refl).
Defined.

(** X2.  [parseBase64Image] throws exactly on a truthy value that is
    not a string; on every string, and on [undefined], [null], [false],
    0 and NaN, it returns ([null] or the image data). *)
Theorem parseBase64Image_throws_iff :
  forall (rt : Runtime) (v : JSValue),
    (exists message, parseBase64Image rt v = Throw message)
    <-> (ToBoolean v = true /\ forall s, v <> JSString s).
Proof.
  intros rt v. unfold parseBase64Image. split.
  - intros [message H].
    destruct (ToBoolean v) eqn:Htruthy; cbn [negb] in H; [ | discriminate ].
    split; [ reflexivity | ].
    intros s ->.
    destruct (startsWith s "data:"); cbn [negb] in H; [ | discriminate ].
    destruct (List.length (split s ";base64,") =? 2)%nat; discriminate.
  - intros [Htruthy Hnot]. rewrite Htruthy. cbn [negb].
    destruct v; try (eexists; reflexivity).
    now destruct (Hnot s).
Qed.

(** X2: the number 5 is no data URI. *)
Lemma parseBase64Image_throws_iff_witness :
  exists message,
    parseBase64Image sampleRuntime (JSNumber 5) = Throw message.
Proof.
  apply (proj2 (parseBase64Image_throws_iff sampleRuntime (JSNumber 5))).
  split; [ reflexivity | discriminate ].
Defined.

(* ------------------------------------------------------------------ *)
(** ** What [injectField] does to the document *)

Lemma nth_error_updateNth_other {A : Type} (l : list A) (i j : nat)
    (f : A -> A) :
  i <> j -> nth_error (updateNth l j f) i = nth_error l i.
Proof.
  revert i j. induction l as [ | a l IH]; intros [ | i] [ | j] Hij; simpl;
    try reflexivity; try contradiction.
  apply IH. congruence.
Qed.

(** The calls [ops] on [page] reach that page only, after what was
    drawn before. *)
Lemma drawAll_spec (ops : list DrawOp) (pdfDoc : PDFDocument)
    (page : PageRef) (p : PDFPage) :
  nth_error (docPages pdfDoc) page = Some p ->
  (forall i, i <> page ->
             nth_error (docPages (drawAll pdfDoc page ops)) i
             = nth_error (docPages pdfDoc) i)
  /\ exists p', nth_error (docPages (drawAll pdfDoc page ops)) page = Some p'
                /\ pageWidth p' = pageWidth p
                /\ pageHeight p' = pageHeight p
                /\ drawn p' = drawn p ++ ops.
Proof.
  revert pdfDoc p. induction ops as [ | op ops IH]; intros pdfDoc p Hp.
  - split; [ reflexivity | ].
    exists p. rewrite app_nil_r. auto.
  - destruct (drawn_after_draw pdfDoc page p op Hp)
      as (p1 & Hp1 & Hdrawn & Hw & Hh).
    destruct (IH (draw pdfDoc page op) p1 Hp1)
      as (Hother & p' & Hp' & Hw' & Hh' & Hdrawn').
    split.
    + intros i Hi. cbn [drawAll fold_left]. fold (drawAll (draw pdfDoc page op) page ops).
      rewrite (Hother i Hi). unfold draw; cbn [docPages].
      now apply nth_error_updateNth_other.
    + exists p'. cbn [drawAll fold_left].
      fold (drawAll (draw pdfDoc page op) page ops).
      repeat split; try congruence.
      rewrite Hdrawn', Hdrawn, <- app_assoc. reflexivity.
Qed.

(** The outcomes of [injectField] on a page: up to two calls on that
    page, with at most one image embedded. *)
Lemma injectField_cases (rt : Runtime) (pdfDoc pdfDoc' : PDFDocument)
    (page : PageRef) (field : Field) (font : PDFFont) :
  injectField rt pdfDoc (Some page) field font = Ok pdfDoc' ->
  exists ops,
    (List.length ops <= 2)%nat
    /\ (pdfDoc' = drawAll pdfDoc page ops
        \/ exists image, pdfDoc' = drawAll (addImage pdfDoc image) page ops).
Proof.
  unfold injectField, drawCall.
  destruct (getSize pdfDoc page) as [size | ]; [ | discriminate ].
  cbn [bind].
  set (box := normalizeCoordinates field (fst size) (snd size)).
  set (outline := DrawRectangle box (rgb 0.1 0.4 0.8) 1 0.1).
  repeat
    (cbn [bind negb];
     match goal with
     | |- context [if ?b then _ else _] => destruct b
     | |- context [parseBase64Image rt ?v] =>
         destruct (parseBase64Image rt v) as [[? | ] | ? ]
     | |- context [embedPng rt ?b] => destruct (embedPng rt b) as [? | ? ]
     | |- context [embedJpg rt ?b] => destruct (embedJpg rt b) as [? | ? ]
     | |- context [rejects rt ?op] => destruct (rejects rt op)
     end);
    cbn [bind negb]; try discriminate;
    intros [= <-];
    first
      [ exists []; split; [ simpl; lia | left; reflexivity ]
      | exists [outline]; split; [ simpl; lia | left; reflexivity ]
      | eexists [_]; split; [ simpl; lia | left; reflexivity ]
      | eexists [_; _]; split; [ simpl; lia | left; reflexivity ]
      | eexists [_]; split; [ simpl; lia | right; eexists; reflexivity ]
      | eexists [_; _]; split; [ simpl; lia | right; eexists; reflexivity ] ].
Qed.

Lemma docPages_drawAll_addImage (ops : list DrawOp) (pdfDoc : PDFDocument)
    (image : PDFImage) (page : PageRef) :
  docPages (drawAll (addImage pdfDoc image) page ops)
  = docPages (drawAll pdfDoc page ops).
Proof.
  revert pdfDoc. induction ops as [ | op ops IH]; intro pdfDoc;
    [ reflexivity | ].
  cbn [drawAll fold_left].
  change (draw (addImage pdfDoc image) page op)
    with (addImage (draw pdfDoc page op) image).
  apply IH.
Qed.

(** X3.  A call of [injectField] that returns has made at most two
    drawing calls, all on the page it was given and after what that
    page already held; the page keeps its size, and every other page
    is exactly as it was. *)
Theorem injectField_touches_one_page :
  forall (rt : Runtime) (pdfDoc pdfDoc' : PDFDocument) (page : PageRef)
         (field : Field) (font : PDFFont),
    injectField rt pdfDoc (Some page) field font = Ok pdfDoc' ->
    (forall i, i <> page ->
               nth_error (docPages pdfDoc') i = nth_error (docPages pdfDoc) i)
    /\ exists p p' ops,
         nth_error (docPages pdfDoc) page = Some p
         /\ nth_error (docPages pdfDoc') page = Some p'
         /\ pageWidth p' = pageWidth p /\ pageHeight p' = pageHeight p
         /\ drawn p' = drawn p ++ ops
         /\ (List.length ops <= 2)%nat.
Proof.
  intros rt pdfDoc pdfDoc' page field font Hrun.
  assert (Hlive : exists p, nth_error (docPages pdfDoc) page = Some p).
  { unfold injectField, getSize in Hrun.
    destruct (nth_error (docPages pdfDoc) page) as [p | ];
      [ now exists p | discriminate ]. }
  destruct Hlive as [p Hp].
  destruct (injectField_cases rt pdfDoc pdfDoc' page field font Hrun)
    as (ops & Hlen & Hdoc).
  assert (Hpages : docPages pdfDoc' = docPages (drawAll pdfDoc page ops)).
  { destruct Hdoc as [-> | [image ->]];
      [ reflexivity | apply docPages_drawAll_addImage ]. }
  destruct (drawAll_spec ops pdfDoc page p Hp)
    as (Hother & p' & Hp' & Hw & Hh & Hdrawn).
  rewrite Hpages. split; [ exact Hother | ].
  exists p, p', ops. auto 10.
Qed.

(** X3: a checked radio on the sample page. *)
Lemma injectField_touches_one_page_witness :
  exists p p' ops,
    nth_error (docPages sampleDoc) O = Some p
    /\ nth_error
         (docPages
            (drawAll sampleDoc O
               [DrawRectangle
                  (normalizeCoordinates scenario 595%float 842%float)
                  (rgb 0.1 0.4 0.8) 1 0.1;
                DrawCircle
                  (x (normalizeCoordinates scenario 595%float 842%float)
                   + width (normalizeCoordinates scenario 595%float 842%float)
                     / 2)
                  (y (normalizeCoordinates scenario 595%float 842%float)
                   + height (normalizeCoordinates scenario 595%float 842%float)
                     / 2)
                  (width (normalizeCoordinates scenario 595%float 842%float)
                   / 4)
                  (rgb 0 0 1) 1 (rgb 0 0 0.8) (rgb 0 0 1)])) O = Some p'
    /\ pageWidth p' = pageWidth p /\ pageHeight p' = pageHeight p
    /\ drawn p' = drawn p ++ ops
    /\ (List.length ops <= 2)%nat.
Proof.
  exact (proj2 (injectField_touches_one_page sampleRuntime sampleDoc _ O
                  (mkField "radio" (JSNumber 0) (JSString "checked"))
                  sampleFont eq_refl)).
Defined.

(** X4.  A signature or image placement whose value is the data URI
    ["data:" ++ m ++ ";base64," ++ payload] (no ';' or ':' in [m], no
    ';' in [payload]), on a page of the document: for [m] image/png the
    decoded payload goes to [embedPng], for image/jpeg or image/jpg to
    [embedJpg]; when the embedding succeeds the image is added to the
    document and [drawImage] is called once with it, stretched over
    exactly the normalized box (the call draws it, or throws what
    pdf-lib rejects the options with), and when the embedding throws,
    [injectField] throws the same value; for every other [m] nothing is
    drawn. *)
Theorem image_fills_the_normalized_box :
  forall (rt : Runtime) (pdfDoc : PDFDocument) (page : PageRef)
         (p : PDFPage) (field : Field) (font : PDFFont) (m payload : string),
    strictEqString (type field) "signature"
    || strictEqString (type field) "image" = true ->
    value field = JSString ("data:" ++ m ++ ";base64," ++ payload) ->
    hasChar ";" m = false -> hasChar ":" m = false ->
    hasChar ";" payload = false ->
    nth_error (docPages pdfDoc) page = Some p ->
    let box := normalizeCoordinates field (pageWidth p) (pageHeight p) in
    let drawIt (embedded : Result PDFImage) : Result PDFDocument :=
      let* pdfImage := embedded in
      drawCall rt (addImage pdfDoc pdfImage) page (DrawImage pdfImage box) in
    injectField rt pdfDoc (Some page) field font
    = if String.eqb m "image/png"
      then drawIt (embedPng rt (fromBase64 rt payload))
      else if String.eqb m "image/jpeg" || String.eqb m "image/jpg"
           then drawIt (embedJpg rt (fromBase64 rt payload))
           else Ok pdfDoc.
Proof.
  intros rt pdfDoc page p field font m payload Htype Hvalue Hm Hcolon
         Hpayload Hp box drawIt.
  assert (Hradio : strictEqString (type field) "radio" = false).
  { apply orb_true_iff in Htype.
    destruct Htype as [H | H]; apply strictEqString_true in H;
      rewrite H; reflexivity. }
  unfold injectField. rewrite (getSize_live _ _ _ Hp). cbn [bind fst snd].
  rewrite Hradio, Htype, Hvalue.
  rewrite (parse_data_uri rt m payload Hm Hcolon Hpayload).
  cbn [bind mime buffer mimeIs]. fold box.
  destruct (String.eqb m "image/png"); [ reflexivity | ].
  destruct (String.eqb m "image/jpeg" || String.eqb m "image/jpg");
    reflexivity.
Qed.

(** X4: a PNG signature on the sample page. *)
Lemma image_fills_the_normalized_box_witness :
  injectField sampleRuntime sampleDoc (Some O)
    (mkField "signature" (JSNumber 0)
       (JSString ("data:" ++ "image/png" ++ ";base64," ++ "iVBORw0KGgo=")))
    sampleFont
  = Ok (draw (addImage sampleDoc
                {| imageFormat := Png; imageBytes := pngSignature |}) O
          (DrawImage {| imageFormat := Png; imageBytes := pngSignature |}
             (normalizeCoordinates scenario 595%float 842%float))).
Proof.
  exact (image_fills_the_normalized_box sampleRuntime sampleDoc O blankA4
           (mkField "signature" (JSNumber 0)
              (JSString ("data:" ++ "image/png" ++ ";base64,"
                           ++ "iVBORw0KGgo=")))
           sampleFont "image/png" "iVBORw0KGgo="
           eq_refl eq_refl eq_refl eq_refl eq_refl eq_refl).
Defined.

(* ------------------------------------------------------------------ *)
(** ** The loop over the placements *)

Lemma injectLoop_append (rt : Runtime) (pages : list PageRef)
    (font : PDFFont) (first second : list Field) (pdfDoc : PDFDocument) :
  injectLoop rt pdfDoc pages font (first ++ second)
  = (let* pdfDoc' := injectLoop rt pdfDoc pages font first in
     injectLoop rt pdfDoc' pages font second).
Proof.
  revert pdfDoc.
  induction first as [ | field first IH]; intro pdfDoc; [ reflexivity | ].
  cbn [app injectLoop].
  destruct (JSge rt _ _); [ apply IH | ].
  destruct (injectField rt pdfDoc _ field font) as [pdfDoc1 | message];
    cbn [bind]; [ apply IH | reflexivity ].
Qed.

(** X5.  The loop over a list followed by another is the loop over the
    first, then, from the document it leaves, the loop over the second;
    when the first part throws, nothing of the second is run. *)
Theorem injectLoop_app :
  forall (rt : Runtime) (pages : list PageRef) (font : PDFFont)
         (first second : list Field) (pdfDoc : PDFDocument),
    injectLoop rt pdfDoc pages font (first ++ second)
    = (let* pdfDoc' := injectLoop rt pdfDoc pages font first in
       injectLoop rt pdfDoc' pages font second).
Proof.
  intros rt pages font first second.
  induction first as [ | field first IH]; intro pdfDoc; [ reflexivity | ].
  cbn [app injectLoop].
  destruct (JSge rt _ _); [ apply IH | ].
  destruct (injectField rt pdfDoc _ field font) as [pdfDoc1 | message];
    cbn [bind]; [ apply IH | reflexivity ].
Qed.

Lemma pageGrows_refl (p : PDFPage) : pageGrows p p.
Proof. repeat split. exists []. now rewrite app_nil_r. Qed.

Lemma pageGrows_trans (p q r : PDFPage) :
  pageGrows p q -> pageGrows q r -> pageGrows p r.
Proof.
  intros (Hw1 & Hh1 & ops1 & H1) (Hw2 & Hh2 & ops2 & H2).
  repeat split; try congruence.
  exists (ops1 ++ ops2). now rewrite H2, H1, app_assoc.
Qed.

Lemma docGrows_refl (d : PDFDocument) : docGrows d d.
Proof.
  split.
  - induction (docPages d); constructor; auto using pageGrows_refl.
  - exists []. now rewrite app_nil_r.
Qed.

Lemma Forall2_pageGrows_trans (l1 l2 l3 : list PDFPage) :
  Forall2 pageGrows l1 l2 -> Forall2 pageGrows l2 l3 ->
  Forall2 pageGrows l1 l3.
Proof.
  intro H12. revert l3. induction H12 as [ | p q l1 l2 Hpq _ IH];
    intros l3 H23; inversion H23; subst; constructor.
  - eapply pageGrows_trans; eassumption.
  - now apply IH.
Qed.

Lemma docGrows_trans (d1 d2 d3 : PDFDocument) :
  docGrows d1 d2 -> docGrows d2 d3 -> docGrows d1 d3.
Proof.
  intros [Hp12 [rs1 Hr12]] [Hp23 [rs2 Hr23]]. split.
  - eapply Forall2_pageGrows_trans; eassumption.
  - exists (rs1 ++ rs2). now rewrite Hr23, Hr12, app_assoc.
Qed.

Lemma docGrows_draw (d : PDFDocument) (page : PageRef) (op : DrawOp) :
  docGrows d (draw d page op).
Proof.
  split.
  - unfold draw; cbn [docPages]. generalize page.
    induction (docPages d) as [ | p l IH]; intros [ | i]; simpl;
      constructor; auto using pageGrows_refl.
    + repeat split. now exists [op].
    + clear. induction l; constructor; auto using pageGrows_refl.
  - exists []. unfold draw; cbn [docResources]. now rewrite app_nil_r.
Qed.

Lemma docGrows_addImage (d : PDFDocument) (image : PDFImage) :
  docGrows d (addImage d image).
Proof.
  split.
  - unfold addImage; cbn [docPages].
    induction (docPages d); constructor; auto using pageGrows_refl.
  - now exists [ImageResource image].
Qed.

Lemma docGrows_drawAll (ops : list DrawOp) (d : PDFDocument)
    (page : PageRef) :
  docGrows d (drawAll d page ops).
Proof.
  revert d. induction ops as [ | op ops IH]; intro d;
    [ apply docGrows_refl | ].
  cbn [drawAll fold_left]. eapply docGrows_trans;
    [ apply docGrows_draw | apply IH ].
Qed.

(** X6.  However the loop ends normally, the document it leaves has the
    same pages in the same order and of the same sizes; on each page
    every earlier drawing call is still there, in order, before the
    calls the loop added; and nothing embedded has been removed.  This
    holds for every list of page references the loop is given. *)
Theorem injectLoop_only_appends :
  forall (rt : Runtime) (pages : list PageRef) (font : PDFFont)
         (fields : list Field) (pdfDoc pdfDoc' : PDFDocument),
    injectLoop rt pdfDoc pages font fields = Ok pdfDoc' ->
    docGrows pdfDoc pdfDoc'
    /\ List.length (docPages pdfDoc') = List.length (docPages pdfDoc).
Proof.
  intros rt pages font fields.
  assert (Hgrows : forall pdfDoc pdfDoc',
             injectLoop rt pdfDoc pages font fields = Ok pdfDoc' ->
             docGrows pdfDoc pdfDoc').
  { induction fields as [ | field fields IH]; intros pdfDoc pdfDoc'.
    - intros [= <-]. apply docGrows_refl.
    - cbn [injectLoop].
      destruct (JSge rt _ _); [ apply IH | ].
      destruct (elementAt pages _) as [page | ];
        [ | discriminate ].
      destruct (injectField rt pdfDoc (Some page) field font)
        as [pdfDoc1 | ] eqn:Hstep; cbn [bind]; [ | discriminate ].
      intro Hrest. apply IH in Hrest.
      eapply docGrows_trans; [ | exact Hrest ].
      destruct (injectField_cases rt pdfDoc pdfDoc1 page field font Hstep)
        as (ops & _ & [-> | [image ->]]).
      + apply docGrows_drawAll.
      + eapply docGrows_trans;
          [ apply docGrows_addImage | apply docGrows_drawAll ]. }
  intros pdfDoc pdfDoc' Hrun. split; [ now apply Hgrows | ].
  destruct (Hgrows pdfDoc pdfDoc' Hrun) as [Hpages _].
  symmetry. eapply Forall2_length. exact Hpages.
Qed.

(** X6: two placements on the sample page. *)
Lemma injectLoop_only_appends_witness :
  List.length
    (docPages
       (draw (draw sampleDoc O
                (DrawRectangle
                   (normalizeCoordinates scenario 595%float 842%float)
                   (rgb 0.1 0.4 0.8) 1 0.1)) O
          (DrawText (JSString "hello")
             (x (normalizeCoordinates scenario 595%float 842%float) + 2)
             (y (normalizeCoordinates scenario 595%float 842%float)
              + height (normalizeCoordinates scenario 595%float 842%float)
              - 10 - 2)
             10 sampleFont (rgb 0 0 0))))
  = List.length (docPages sampleDoc).
Proof.
  exact (proj2 (injectLoop_only_appends sampleRuntime (getPages sampleDoc)
                  sampleFont
                  [mkField "radio" (JSNumber 0) JSNull;
                   mkField "text" (JSNumber 0) (JSString "hello")]
                  sampleDoc _ eq_refl)).
Defined.

(* ------------------------------------------------------------------ *)
(** ** Outcomes of [injectFields] *)



(** What a run that returned normally went through and left behind. *)
Lemma injectFields_completed (rt : Runtime) (pdfPath pdfName : string)
    (fields : list Field) (outputPath : string) (w w' : World) (r : string) :
  injectFields rt pdfPath pdfName fields outputPath w = (w', Ok r) ->
  exists bytes pdfBytes,
    files w pdfPath = Some bytes
    /\ signedBytes rt bytes fields = Ok pdfBytes
    /\ writable w outputPath = true
    /\ r = outputPath
    /\ files w' outputPath = Some pdfBytes
    /\ (forall p, p <> outputPath -> files w' p = files w p)
    /\ (auditLog w' = auditLog w
        \/ auditLog w'
           = auditLog w
               ++ [{| pdfName := pdfName;
                      originalHash := sha256hex rt bytes;
                      signedHash := sha256hex rt pdfBytes;
                      fields := fields |}]).
Proof.
  rewrite injectFields_stages.
  destruct (files w pdfPath) as [bytes | ] eqn:Hfile; [ | discriminate ].
  destruct (signedBytes rt bytes fields) as [pdfBytes | ] eqn:Hbytes;
    [ | discriminate ].
  destruct (writable w outputPath) eqn:Hwritable; [ | discriminate ].
  intros [= <- <-]. exists bytes, pdfBytes.
  unfold completedRun, logAuditEntry, tryCatch, auditSave, consoleLog,
    consoleError.
  unfold bindM. cbv beta.
  cbn [files writable console auditFault auditLog].
  match goal with
  | |- context [auditFault w ?e] => destruct (auditFault w e)
  end; cbn [fst files auditLog]; rewrite String.eqb_refl;
    repeat match goal with |- _ /\ _ => split end;
    first [ assumption | reflexivity
          | now left | now right
          | intros p Hp; apply String.eqb_neq in Hp; now rewrite Hp ].
Qed.

(** X8.  A run returns normally exactly when the input file can be
    read, loading, injecting and saving succeed, and the output path
    can be written.  It then returns the output path; the output file
    holds the saved bytes and every other file is as it was; and the
    audit collection is unchanged or has gained one entry, which holds
    the document name, the digest of the input bytes, the digest of the
    output bytes and the placement list as it was submitted. *)
Theorem completed_run_delivers :
  forall (rt : Runtime) (pdfPath pdfName : string) (fields : list Field)
         (outputPath : string) (w : World),
    ((exists w' r,
         injectFields rt pdfPath pdfName fields outputPath w = (w', Ok r))
     <-> (exists bytes pdfBytes,
             files w pdfPath = Some bytes
             /\ signedBytes rt bytes fields = Ok pdfBytes
             /\ writable w outputPath = true))
    /\ (forall w' r,
           injectFields rt pdfPath pdfName fields outputPath w = (w', Ok r) ->
           exists bytes pdfBytes,
             files w pdfPath = Some bytes
             /\ signedBytes rt bytes fields = Ok pdfBytes
             /\ r = outputPath
             /\ files w' outputPath = Some pdfBytes
             /\ (forall p, p <> outputPath -> files w' p = files w p)
             /\ (auditLog w' = auditLog w
                 \/ auditLog w'
                    = auditLog w
                        ++ [{| pdfName := pdfName;
                               originalHash := sha256hex rt bytes;
                               signedHash := sha256hex rt pdfBytes;
                               fields := fields |}])).
Proof.
  intros rt pdfPath pdfName fields outputPath w.
  pose proof (injectFields_completed rt pdfPath pdfName fields outputPath w)
    as Hdetail.
  split; [ split | ].
  - intros (w' & r & Hrun).
    destruct (Hdetail w' r Hrun) as (bytes & pdfBytes & H1 & H2 & H3 & _).
    now exists bytes, pdfBytes.
  - intros (bytes & pdfBytes & Hfile & Hbytes & Hwritable).
    rewrite injectFields_stages, Hfile, Hbytes, Hwritable. eauto.
  - intros w' r Hrun.
    destruct (Hdetail w' r Hrun)
      as (bytes & pdfBytes & H1 & H2 & _ & H4 & H5 & H6 & H7).
    exists bytes, pdfBytes. auto 10.
Qed.

(** X8: the sample upload with one text placement. *)
Lemma completed_run_delivers_witness :
  exists bytes pdfBytes,
    files sampleWorld "uploads/a1" = Some bytes
    /\ signedBytes sampleRuntime bytes
         [mkField "text" (JSNumber 0) (JSString "hello")] = Ok pdfBytes
    /\ writable sampleWorld "output/signed-a1.pdf" = true.
Proof.
  apply (proj1 (proj1 (completed_run_delivers sampleRuntime "uploads/a1"
                         "a.pdf"
                         [mkField "text" (JSNumber 0) (JSString "hello")]
                         "output/signed-a1.pdf" sampleWorld))).
  eexists. eexists. rewrite injectFields_stages. reflexivity.
Defined.

(* ------------------------------------------------------------------ *)
(** ** The endpoint *)

(** Removing a file, logged or not, leaves no file at the path and
    touches nothing else. *)
Lemma unlinkLogged_spec (target label : string) (w : World) :
  snd (unlinkLogged target label w) = Ok tt
  /\ (forall q, files (fst (unlinkLogged target label w)) q
                = if String.eqb q target then None else files w q)
  /\ auditLog (fst (unlinkLogged target label w)) = auditLog w.
Proof.
  unfold unlinkLogged, tryCatch, unlink, consoleError.
  destruct (files w target) eqn:Hfile; cbn [fst snd files auditLog];
    repeat split.
  intro q. destruct (String.eqb_spec q target) as [-> | _];
    [ exact Hfile | reflexivity ].
Qed.

Lemma afterSend_spec (pdfPath outputPath : string) (err : option string)
    (w : World) :
  (forall q, files (fst (afterSend pdfPath outputPath err w)) q
             = if String.eqb q outputPath then None
               else if String.eqb q pdfPath then None else files w q)
  /\ auditLog (fst (afterSend pdfPath outputPath err w)) = auditLog w.
Proof.
  unfold afterSend, bindM.
  set (w0 := fst (match err with
                  | Some message =>
                      consoleError ("Error sending file: " ++ message)
                  | None => ret tt
                  end w)).
  assert (Hw0 : files w0 = files w /\ auditLog w0 = auditLog w)
    by (subst w0; destruct err; split; reflexivity).
  replace (match err with
           | Some message => consoleError ("Error sending file: " ++ message)
           | None => ret tt
           end w) with (w0, @Ok unit tt)
    by (subst w0; destruct err; reflexivity).
  cbv beta iota.
  destruct (unlinkLogged_spec pdfPath "Cleanup error (uploads):" w0)
    as (Hok1 & Hfiles1 & Hlog1).
  destruct (unlinkLogged pdfPath "Cleanup error (uploads):" w0)
    as [w1 r1]. cbn [fst snd] in *. subst r1. cbv beta iota.
  destruct (unlinkLogged_spec outputPath "Cleanup error (output):" w1)
    as (_ & Hfiles2 & Hlog2).
  destruct Hw0 as [Hf0 Hl0].
  split.
  - intro q. rewrite (Hfiles2 q).
    destruct (String.eqb q outputPath); [ reflexivity | ].
    rewrite (Hfiles1 q), Hf0. reflexivity.
  - now rewrite Hlog2, Hlog1.
Qed.

Lemma apiError_spec (upload : UploadedFile) (error : Thrown) (w : World) :
  path upload <> EmptyString ->
  snd (apiError upload error w)
  = Ok (Json 500 (if ToBoolean (messageOf error) then messageText error
                  else "Internal Server Error during PDF processing."))
  /\ (forall q, files (fst (apiError upload error w)) q
                = if String.eqb q (path upload) then None else files w q)
  /\ auditLog (fst (apiError upload error w)) = auditLog w.
Proof.
  intro Hpath. apply String.eqb_neq in Hpath.
  unfold apiError, bindM, consoleError.
  change (ToBoolean (JSString (path upload)))
    with (negb (String.eqb (path upload) "")).
  rewrite Hpath. cbn [negb].
  match goal with
  | |- context [unlinkLogged ?t ?l ?w0] =>
      destruct (unlinkLogged_spec t l w0) as (Hok & Hfiles & Hlog);
      destruct (unlinkLogged t l w0) as [w1 r1]
  end.
  cbn [fst snd] in *. subst r1. unfold ret. cbv beta iota. cbn [fst snd].
  repeat split.
  - intro q. now rewrite (Hfiles q).
  - now rewrite Hlog.
Qed.

Section EndpointFacts.

Variable rt : Runtime.
Variable JSONparse : string -> Result (list Field).

(** The handler, stage by stage. *)
Lemma burnFields_stages (req : Request) (w : World) :
  burnFields rt JSONparse req w
  = match file req with
    | None => (w, Ok (Json 400 "No PDF file uploaded."))
    | Some upload =>
        match fieldsJson req with
        | None | Some EmptyString =>
            match files w (path upload) with
            | Some _ =>
                (fst (unlink (path upload) w),
                 Ok (Json 400 "Missing fields payload."))
            | None =>
                apiError upload
                  ("ENOENT: no such file or directory, unlink '"
                     ++ path upload ++ "'") w
            end
        | Some text =>
            match JSONparse text with
            | Throw message => apiError upload message w
            | Ok fields =>
                match injectFields rt (path upload) (originalname upload)
                        fields (outputPathOf upload) w with
                | (w1, Throw message) => apiError upload message w1
                | (w1, Ok _) =>
                    download (outputPathOf upload)
                      ("signed-" ++ filename upload ++ ".pdf")
                      (afterSend (path upload) (outputPathOf upload)) w1
                end
            end
        end
    end.
Proof.
  unfold burnFields. destruct (file req) as [upload | ]; [ | reflexivity ].
  unfold tryCatch at 1.
  fold (apiError upload).
  destruct (fieldsJson req) as [[ | c text] | ]; cbn [optionalString ToBoolean
    String.eqb negb].
  - unfold bindM, unlink.
    destruct (files w (path upload)); reflexivity.
  - unfold bindM at 1, lift.
    destruct (JSONparse (String c text)) as [fields | message];
      [ | reflexivity ].
    unfold bindM at 1.
    fold (outputPathOf upload).
    fold (afterSend (path upload) (outputPathOf upload)).
    destruct (injectFields rt (path upload) (originalname upload) fields
                (outputPathOf upload) w) as [w1 [r | message]];
      [ | reflexivity ].
    unfold download.
    destruct (files w1 (outputPathOf upload)); reflexivity.
  - unfold bindM, unlink.
    destruct (files w (path upload)); reflexivity.
Qed.

End EndpointFacts.

Lemma apiError_answer (upload : UploadedFile) (error : Thrown) (w : World) :
  exists text, text <> EmptyString
               /\ snd (apiError upload error w) = Ok (Json 500 text).
Proof.
  exists (if ToBoolean (messageOf error) then messageText error
          else "Internal Server Error during PDF processing."%string).
  split.
  - destruct error as [[ | c message] | text]; discriminate.
  - unfold apiError, bindM, consoleError.
    destruct (ToBoolean (JSString (path upload))).
    + match goal with
      | |- context [unlinkLogged ?t ?l ?w0] =>
          destruct (unlinkLogged_spec t l w0) as (Hok & _);
          destruct (unlinkLogged t l w0) as [w1 r1]
      end.
      cbn [fst snd] in *. subst r1. unfold ret. cbv beta iota. cbn [snd].
      reflexivity.
    + reflexivity.
Qed.

(** X9.  Whenever a file was uploaded, no file is left at its path once
    the handler has answered: whether the fields were missing, the JSON
    was malformed, the injection failed or the download was sent. *)
Theorem upload_is_always_removed :
  forall (rt : Runtime) (JSONparse : string -> Result (list Field))
         (req : Request) (upload : UploadedFile) (w : World),
    file req = Some upload ->
    path upload <> EmptyString ->
    files (fst (burnFields rt JSONparse req w)) (path upload) = None.
Proof.
  intros rt JSONparse req upload w Hfile Hpath.
  rewrite burnFields_stages, Hfile.
  assert (Herror : forall message w0,
             files (fst (apiError upload message w0)) (path upload) = None).
  { intros message w0.
    destruct (apiError_spec upload message w0 Hpath) as (_ & Hfiles & _).
    now rewrite Hfiles, String.eqb_refl. }
  assert (Hmissing :
            files (fst match files w (path upload) with
                       | Some _ =>
                           (fst (unlink (path upload) w),
                            Ok (Json 400 "Missing fields payload."))
                       | None =>
                           apiError upload
                             ("ENOENT: no such file or directory, unlink '"
                                ++ path upload ++ "'") w
                       end) (path upload) = None).
  { unfold unlink.
    destruct (files w (path upload)); [ | apply Herror ].
    cbn [fst files]. now rewrite String.eqb_refl. }
  destruct (fieldsJson req) as [[ | c text] | ]; try exact Hmissing.
  destruct (JSONparse (String c text)) as [fields | message];
    [ | apply Herror ].
  destruct (injectFields rt (path upload) (originalname upload) fields
              (outputPathOf upload) w) as [w1 [r | message]];
    [ | apply Herror ].
  unfold download.
  destruct (files w1 (outputPathOf upload)); cbn [fst];
    match goal with
    | |- context [afterSend ?a ?b ?e ?w0] =>
        destruct (afterSend_spec a b e w0) as (Hfiles & _)
    end;
    rewrite Hfiles, String.eqb_refl;
    now destruct (String.eqb (path upload) (outputPathOf upload)).
Qed.

(** X9: the sample upload, sent without a fields part. *)
Lemma upload_is_always_removed_witness :
  files (fst (burnFields sampleRuntime (fun _ => Ok [])
                {| file := Some {| path := "uploads/a1";
                                   originalname := "a.pdf";
                                   filename := "a1" |};
                   fieldsJson := None |} sampleWorld)) "uploads/a1" = None.
Proof.
  refine (upload_is_always_removed sampleRuntime (fun _ => Ok [])
            {| file := Some {| path := "uploads/a1";
                               originalname := "a.pdf";
                               filename := "a1" |};
               fieldsJson := None |}
            {| path := "uploads/a1"; originalname := "a.pdf";
               filename := "a1" |} sampleWorld eq_refl _).
  discriminate.
Defined.

(** X10.  The handler never lets an error escape and always answers:
    400 "No PDF file uploaded.", 400 "Missing fields payload.", 500
    with a message that is not empty, or the download of a file; the
    download never finds its file missing.  Without an uploaded file
    the answer is the first and nothing in the world is touched. *)
Theorem endpoint_always_answers :
  forall (rt : Runtime) (JSONparse : string -> Result (list Field))
         (req : Request) (w : World),
    (file req = None ->
     burnFields rt JSONparse req w
     = (w, Ok (Json 400 "No PDF file uploaded.")))
    /\ exists response,
         snd (burnFields rt JSONparse req w) = Ok response
         /\ (response = Json 400 "No PDF file uploaded."
             \/ response = Json 400 "Missing fields payload."
             \/ (exists text, text <> EmptyString
                              /\ response = Json 500 text)
             \/ exists name content, response = Download name content).
Proof.
  intros rt JSONparse req w. split.
  - intro Hfile. now rewrite burnFields_stages, Hfile.
  - rewrite burnFields_stages.
    destruct (file req) as [upload | ];
      [ | exists (Json 400 "No PDF file uploaded.");
          split; [ reflexivity | now left ] ].
    assert (Herror : forall message w0,
               exists response,
                 snd (apiError upload message w0) = Ok response
                 /\ (response = Json 400 "No PDF file uploaded."
                     \/ response = Json 400 "Missing fields payload."
                     \/ (exists text, text <> EmptyString
                                      /\ response = Json 500 text)
                     \/ exists name content,
                          response = Download name content)).
    { intros message w0.
      destruct (apiError_answer upload message w0) as (text & Htext & Hsnd).
      exists (Json 500 text). split; [ exact Hsnd | ].
      right; right; left. now exists text. }
    assert (Hmissing :
              exists response,
                snd match files w (path upload) with
                    | Some _ =>
                        (fst (unlink (path upload) w),
                         Ok (Json 400 "Missing fields payload."))
                    | None =>
                        apiError upload
                          ("ENOENT: no such file or directory, unlink '"
                             ++ path upload ++ "'") w
                    end = Ok response
                /\ (response = Json 400 "No PDF file uploaded."
                    \/ response = Json 400 "Missing fields payload."
                    \/ (exists text, text <> EmptyString
                                     /\ response = Json 500 text)
                    \/ exists name content,
                         response = Download name content)).
    { destruct (files w (path upload)); [ | apply Herror ].
      exists (Json 400 "Missing fields payload.").
      split; [ reflexivity | right; now left ]. }
    destruct (fieldsJson req) as [[ | c text] | ]; try exact Hmissing.
    destruct (JSONparse (String c text)) as [fields | message];
      [ | apply Herror ].
    destruct (injectFields rt (path upload) (originalname upload) fields
                (outputPathOf upload) w) as [w1 [r | message]] eqn:Hrun;
      [ | apply Herror ].
    destruct (injectFields_completed _ _ _ _ _ _ _ _ Hrun)
      as (bytes & pdfBytes & _ & _ & _ & _ & Hout & _).
    unfold download. rewrite Hout. cbn [snd].
    exists (Download ("signed-" ++ filename upload ++ ".pdf") pdfBytes).
    split; [ reflexivity | ].
    right; right; right. now exists ("signed-" ++ filename upload ++ ".pdf")%string, pdfBytes.
Qed.

(** X10: a request without a file. *)
Lemma endpoint_always_answers_witness :
  burnFields sampleRuntime (fun _ => Ok [])
    {| file := None; fieldsJson := Some "[]"%string |} sampleWorld
  = (sampleWorld, Ok (Json 400 "No PDF file uploaded.")).
Proof.
  exact (proj1 (endpoint_always_answers sampleRuntime (fun _ => Ok [])
                  {| file := None; fieldsJson := Some "[]"%string |}
                  sampleWorld) eq_refl).
Defined.

(** X11.  When the upload can be read, the fields text is not empty and
    parses, loading, injecting and saving succeed and the output path
    can be written, the handler answers with the download of the saved
    bytes under the name "signed-<filename>.pdf"; afterwards neither
    the upload nor the output file exists, every other file is as it
    was, and the audit collection is unchanged or has gained the entry
    of the run, named after the original file name. *)
Theorem endpoint_sends_the_signed_document :
  forall (rt : Runtime) (JSONparse : string -> Result (list Field))
         (req : Request) (upload : UploadedFile) (w : World)
         (text : string) (placements : list Field)
         (bytes pdfBytes : list Byte.byte),
    file req = Some upload ->
    fieldsJson req = Some text -> text <> EmptyString ->
    JSONparse text = Ok placements ->
    files w (path upload) = Some bytes ->
    signedBytes rt bytes placements = Ok pdfBytes ->
    writable w (outputPathOf upload) = true ->
    let after := fst (burnFields rt JSONparse req w) in
    snd (burnFields rt JSONparse req w)
    = Ok (Download ("signed-" ++ filename upload ++ ".pdf") pdfBytes)
    /\ files after (path upload) = None
    /\ files after (outputPathOf upload) = None
    /\ (forall q, q <> path upload -> q <> outputPathOf upload ->
                  files after q = files w q)
    /\ (auditLog after = auditLog w
        \/ auditLog after
           = auditLog w
               ++ [{| pdfName := originalname upload;
                      originalHash := sha256hex rt bytes;
                      signedHash := sha256hex rt pdfBytes;
                      fields := placements |}]).
Proof.
  intros rt JSONparse req upload w text placements bytes pdfBytes
         Hfile Hjson Htext Hparse Hbytes Hsigned Hwritable after.
  subst after. rewrite burnFields_stages, Hfile, Hjson.
  destruct text as [ | c text]; [ contradiction | ].
  rewrite Hparse.
  destruct (injectFields rt (path upload) (originalname upload) placements
              (outputPathOf upload) w) as [w1 [r | message]] eqn:Hrun.
  - destruct (injectFields_completed _ _ _ _ _ _ _ _ Hrun)
      as (bytes' & pdfBytes' & Hb & Hs & _ & _ & Hout & Hothers & Hlog).
    rewrite Hbytes in Hb. injection Hb as <-.
    rewrite Hsigned in Hs. injection Hs as <-.
    unfold download. rewrite Hout. cbn [fst snd].
    destruct (afterSend_spec (path upload) (outputPathOf upload) None w1)
      as (Hfiles & Haudit).
    split; [ reflexivity | ].
    split.
    { rewrite Hfiles, String.eqb_refl.
      now destruct (String.eqb (path upload) (outputPathOf upload)). }
    split; [ now rewrite Hfiles, String.eqb_refl | ].
    split.
    { intros q Hq1 Hq2. rewrite Hfiles.
      apply String.eqb_neq in Hq1. rewrite Hq1.
      pose proof Hq2 as Hq2'. apply String.eqb_neq in Hq2'. rewrite Hq2'.
      now apply Hothers. }
    rewrite Haudit. exact Hlog.
  - exfalso. revert Hrun.
    rewrite injectFields_stages, Hbytes, Hsigned, Hwritable. discriminate.
Qed.

(** X11: the sample upload with an empty list of placements. *)
Lemma endpoint_sends_the_signed_document_witness :
  snd (burnFields sampleRuntime (fun _ => Ok [])
         {| file := Some {| path := "uploads/a1"; originalname := "a.pdf";
                            filename := "a1" |};
            fieldsJson := Some "[]"%string |} sampleWorld)
  = Ok (Download "signed-a1.pdf" (bytesOfString "%PDF" ++ [Byte.x0c])).
Proof.
  refine (proj1 (endpoint_sends_the_signed_document sampleRuntime
                   (fun _ => Ok [])
                   {| file := Some {| path := "uploads/a1";
                                      originalname := "a.pdf";
                                      filename := "a1" |};
                      fieldsJson := Some "[]"%string |}
                   {| path := "uploads/a1"; originalname := "a.pdf";
                      filename := "a1" |}
                   sampleWorld "[]" [] (bytesOfString "%PDF-1.7")
                   (bytesOfString "%PDF" ++ [Byte.x0c])
                   eq_refl eq_refl _ eq_refl eq_refl eq_refl eq_refl)).
  discriminate.
Defined.

(** X12.  When the fields text does not parse, or loading the upload,
    injecting into it or saving it throws, the handler answers 500:
    with the message of the parser's SyntaxError (the stock message
    when that is empty), or with "PDF injection failed: " followed by
    [cause.message] of the value that was thrown (the text "undefined"
    when that value is a bare string).  It removes the upload, writes
    no file and adds nothing to the audit collection. *)
Theorem endpoint_reports_failures :
  forall (rt : Runtime) (JSONparse : string -> Result (list Field))
         (req : Request) (upload : UploadedFile) (w : World)
         (text : string),
    file req = Some upload ->
    path upload <> EmptyString ->
    fieldsJson req = Some text -> text <> EmptyString ->
    let after := fst (burnFields rt JSONparse req w) in
    let untouched :=
      (forall q, files after q
                 = if String.eqb q (path upload) then None else files w q)
      /\ auditLog after = auditLog w in
    (forall message : string,
        JSONparse text = Throw message ->
        snd (burnFields rt JSONparse req w)
        = Ok (Json 500
                (if String.eqb message "" then
                   "Internal Server Error during PDF processing."
                 else message))
        /\ untouched)
    /\ (forall placements bytes (cause : Thrown),
           JSONparse text = Ok placements ->
           files w (path upload) = Some bytes ->
           signedBytes rt bytes placements = Throw cause ->
           snd (burnFields rt JSONparse req w)
           = Ok (Json 500 ("PDF injection failed: " ++ messageText cause))
           /\ untouched).
Proof.
  intros rt JSONparse req upload w text Hfile Hpath Hjson Htext after
         untouched.
  subst untouched after. rewrite burnFields_stages, Hfile, Hjson.
  destruct text as [ | c text]; [ contradiction | ].
  split.
  - intros message Hparse. rewrite Hparse.
    destruct (apiError_spec upload message w Hpath) as (Hsnd & Hfiles & Hlog).
    split; [ | split; assumption ].
    rewrite Hsnd. cbn [messageOf messageText ToBoolean].
    now destruct (String.eqb message "").
  - intros placements bytes cause Hparse Hbytes Hsigned. rewrite Hparse.
    rewrite injectFields_stages, Hbytes, Hsigned. unfold failedRun.
    match goal with
    | |- context [apiError upload ?m ?w0] =>
        destruct (apiError_spec upload m w0 Hpath) as (Hsnd & Hfiles & Hlog)
    end.
    rewrite Hsnd. split; [ reflexivity | ].
    split; [ exact Hfiles | exact Hlog ].
Qed.

(** X12: the sample upload with a fields text that is no JSON. *)
Lemma endpoint_reports_failures_witness :
  snd (burnFields sampleRuntime (fun _ => Throw "Unexpected end of JSON input")
         {| file := Some {| path := "uploads/a1"; originalname := "a.pdf";
                            filename := "a1" |};
            fieldsJson := Some "["%string |} sampleWorld)
  = Ok (Json 500 "Unexpected end of JSON input").
Proof.
  refine (proj1 (proj1 (endpoint_reports_failures sampleRuntime
                          (fun _ => Throw "Unexpected end of JSON input"%string)
                          {| file := Some {| path := "uploads/a1";
                                             originalname := "a.pdf";
                                             filename := "a1" |};
                             fieldsJson := Some "["%string |}
                          {| path := "uploads/a1"; originalname := "a.pdf";
                             filename := "a1" |}
                          sampleWorld "["%string eq_refl _ eq_refl _)
                   "Unexpected end of JSON input"%string eq_refl));
    discriminate.
Defined.

(* ------------------------------------------------------------------ *)
(** ** From the viewer to the page *)

(** X13.  Read in exact arithmetic, a box authored on the 595 x 842
    reference frame and sent through [getNormalizedCoordinates] and
    [normalizeCoordinates] lands scaled by W / 595 across and H / 842
    down: its left edge and its size scale, and its top edge is as far
    from the top of the page as authored, scaled (y + height measures
    it from the bottom).  On a 595 x 842 page the box keeps its left
    edge and size, and its bottom edge is at 842 - y - height. *)
Theorem authored_box_lands_scaled :
  forall (b : Coords Q) (W H : Q),
    let r := normalizeCoordinates (App.fractionsOf b) W H in
    let a4 := normalizeCoordinates (App.fractionsOf b) 595%Q 842%Q in
    (x r == x b * (W / 595)
     /\ width r == width b * (W / 595)
     /\ height r == height b * (H / 842)
     /\ y r + height r == (842 - y b) * (H / 842)
     /\ x a4 == x b /\ width a4 == width b /\ height a4 == height b
     /\ y a4 == 842 - y b - height b)%Q.
Proof.
  intros b W H r a4. subst r a4.
  cbn [normalizeCoordinates App.fractionsOf x y width height
         xPct yPct wPct hPct Q_Arith one sub mul
         App.Q_Authoring App.quot App.A4_WIDTH App.A4_HEIGHT].
  repeat split; field.
Qed.

Lemma append_nonempty (a b : string) (c : ascii) :
  String.eqb (a ++ String c b) "" = false.
Proof. destruct a; reflexivity. Qed.

(** The payload element of a date field whose value is
    year-month-day. *)
Lemma date_payload (field : App.PlacedField) (year month day : string) :
  App.type field = JSString "date" ->
  App.value field = JSString (year ++ "-" ++ month ++ "-" ++ day) ->
  hasChar "-" year = false -> hasChar "-" month = false ->
  hasChar "-" day = false ->
  App.getNormalizedCoordinates field
  = Ok {| type := JSString "date";
          pageNumber := App.pageNumber field;
          value := JSString (day ++ "/" ++ month ++ "/" ++ year);
          fractions := App.fractionsOf (App.box field);
          others := [("id"%string, JSString (App.id field))] |}.
Proof.
  intros Htype Hvalue Hy Hm Hd.
  unfold App.getNormalizedCoordinates. rewrite Htype, Hvalue.
  cbn [strictEqString ToBoolean andb].
  change (String.eqb "date" "date") with true.
  change (year ++ "-" ++ month ++ "-" ++ day)%string
    with (year ++ String "-" (month ++ "-" ++ day))%string.
  rewrite append_nonempty. cbn [negb andb].
  change (year ++ String "-" (month ++ "-" ++ day))%string
    with (year ++ String "-" EmptyString ++ month
            ++ String "-" EmptyString ++ day)%string.
  rewrite (split_three "-" EmptyString year month day Hy Hm Hd).
  reflexivity.
Qed.

(** X14.  What [getNormalizedCoordinates] sends as the value.  A date
    field's value year-month-day (three parts without '-') goes out as
    day/month/year, and so does any text that splits on '-' into three
    parts, last part first.  A field of any other type, a date field
    whose value is absent or empty, and a date field whose text does
    not split into three parts send the value as it is.  A date field
    whose value is neither falsy nor a string has no [split]: the call
    throws and sends nothing.  Whenever the call returns, the type,
    the page number and the four fractions are those of the field. *)
Theorem date_is_sent_day_first :
  forall (field : App.PlacedField),
    (forall year month day,
        App.type field = JSString "date" ->
        App.value field = JSString (year ++ "-" ++ month ++ "-" ++ day) ->
        hasChar "-" year = false -> hasChar "-" month = false ->
        hasChar "-" day = false ->
        exists payload,
          App.getNormalizedCoordinates field = Ok payload
          /\ value payload = JSString (day ++ "/" ++ month ++ "/" ++ year)
          /\ type payload = JSString "date"
          /\ pageNumber payload = App.pageNumber field)
    /\ (strictEqString (App.type field) "date" = false ->
        exists payload,
          App.getNormalizedCoordinates field = Ok payload
          /\ value payload = App.value field
          /\ type payload = App.type field
          /\ pageNumber payload = App.pageNumber field)
    /\ (forall text first second third,
           App.type field = JSString "date" ->
           App.value field = JSString text ->
           split text "-" = [first; second; third] ->
           exists payload,
             App.getNormalizedCoordinates field = Ok payload
             /\ value payload
                = JSString (third ++ "/" ++ second ++ "/" ++ first))
    /\ (ToBoolean (App.value field) = false ->
        exists payload,
          App.getNormalizedCoordinates field = Ok payload
          /\ value payload = App.value field)
    /\ (forall text,
           App.value field = JSString text ->
           List.length (split text "-") <> 3%nat ->
           exists payload,
             App.getNormalizedCoordinates field = Ok payload
             /\ value payload = App.value field)
    /\ (strictEqString (App.type field) "date" = true ->
        ToBoolean (App.value field) = true ->
        (forall text, App.value field <> JSString text) ->
        App.getNormalizedCoordinates field
        = Throw "field.value.split is not a function")
    /\ (forall payload,
           App.getNormalizedCoordinates field = Ok payload ->
           type payload = App.type field
           /\ pageNumber payload = App.pageNumber field
           /\ fractions payload = App.fractionsOf (App.box field)).
Proof.
  intro field.
  repeat match goal with |- _ /\ _ => split end.
  - intros year month day Htype Hvalue Hy Hm Hd.
    rewrite (date_payload field year month day Htype Hvalue Hy Hm Hd).
    eexists. split; [ reflexivity | ]. repeat split.
  - intro Htype. unfold App.getNormalizedCoordinates. rewrite Htype.
    cbn [andb bind]. eexists. split; [ reflexivity | ]. repeat split.
  - intros text first second third Htype Hvalue Hsplit.
    unfold App.getNormalizedCoordinates. rewrite Htype, Hvalue.
    destruct text as [ | c text]; [ discriminate Hsplit | ].
    cbn [strictEqString ToBoolean].
    change (String.eqb "date" "date") with true.
    change (String.eqb (String c text) "") with false.
    cbn [negb andb]. rewrite Hsplit. cbn [List.length Nat.eqb nth bind].
    eexists. split; reflexivity.
  - intro Hvalue. unfold App.getNormalizedCoordinates. rewrite Hvalue.
    rewrite andb_false_r. cbn [bind].
    eexists. split; reflexivity.
  - intros text Hvalue Hparts. unfold App.getNormalizedCoordinates.
    rewrite Hvalue. apply Nat.eqb_neq in Hparts. rewrite Hparts.
    destruct (strictEqString (App.type field) "date"
              && ToBoolean (JSString text));
      cbn [bind]; eexists; split; reflexivity.
  - intros Htype Htruthy Hother. unfold App.getNormalizedCoordinates.
    rewrite Htype, Htruthy. cbn [andb].
    destruct (App.value field) as [ | | flag | n | text];
      try reflexivity.
    now elim (Hother text).
  - intros payload. unfold App.getNormalizedCoordinates.
    destruct (strictEqString (App.type field) "date"
              && ToBoolean (App.value field)).
    + destruct (App.value field) as [ | | flag | n | text];
        try discriminate.
      destruct (List.length (split text "-") =? 3)%nat; cbn [bind];
        intros [= <-]; repeat split.
    + cbn [bind]. intros [= <-]. repeat split.
Qed.

(** X14: the ninth of March. *)
Lemma date_is_sent_day_first_witness :
  exists payload,
    App.getNormalizedCoordinates
      {| App.id := "field-1"; App.type := JSString "date";
         App.pageNumber := JSNumber 0;
         App.value := JSString ("2024" ++ "-" ++ "03" ++ "-" ++ "09");
         App.box := {| x := 10; y := 20; width := 100;
                       height := 30 |}%float |}
    = Ok payload
    /\ value payload = JSString ("09" ++ "/" ++ "03" ++ "/" ++ "2024")
    /\ type payload = JSString "date"
    /\ pageNumber payload = JSNumber 0.
Proof.
  exact (proj1 (date_is_sent_day_first
                  {| App.id := "field-1"; App.type := JSString "date";
                     App.pageNumber := JSNumber 0;
                     App.value :=
                       JSString ("2024" ++ "-" ++ "03" ++ "-" ++ "09");
                     App.box := {| x := 10; y := 20; width := 100;
                                   height := 30 |}%float |})
           "2024"%string "03"%string "09"%string
           eq_refl eq_refl eq_refl eq_refl eq_refl).
Defined.

(** X15.  A placement whose page number is a number below zero stops
    the batch wherever it stands in the list: when the placements
    before it went through, the loop throws at it, for every document,
    every type and value of the placement, and none of the placements
    after it is looked at. *)
Theorem negative_pageNumber_stops_the_batch :
  forall (rt : Runtime) (pdfDoc pdfDoc1 : PDFDocument)
         (pages : list PageRef) (font : PDFFont)
         (first rest : list Field) (field : Field) (n : float),
    injectLoop rt pdfDoc pages font first = Ok pdfDoc1 ->
    pageNumber field = JSNumber n ->
    PrimFloat.ltb n 0 = true ->
    injectLoop rt pdfDoc pages font (first ++ field :: rest)
    = Throw "Cannot read properties of undefined (reading 'getSize')".
Proof.
  intros rt pdfDoc pdfDoc1 pages font first rest field n Hfirst Hfield Hneg.
  rewrite injectLoop_append, Hfirst. cbn [bind].
  cbn [injectLoop]. rewrite Hfield.
  unfold JSor. rewrite (negative_float_truthy n Hneg).
  unfold JSge, ToNumber, geInteger, elementAt, arrayIndexOfNumber.
  destruct (negative_float n Hneg) as [-> | (m & e & ->)]; reflexivity.
Qed.

(** X15: page number -1 after a text placement. *)
Lemma negative_pageNumber_stops_the_batch_witness :
  injectLoop sampleRuntime sampleDoc (getPages sampleDoc) sampleFont
    ([mkField "text" (JSNumber 0) (JSString "hello")]
       ++ mkField "radio" (JSNumber (-1)) (JSString "checked")
            :: [mkField "text" (JSNumber 0) (JSString "bye")])
  = Throw "Cannot read properties of undefined (reading 'getSize')".
Proof.
  exact (negative_pageNumber_stops_the_batch sampleRuntime sampleDoc _
           (getPages sampleDoc) sampleFont
           [mkField "text" (JSNumber 0) (JSString "hello")]
           [mkField "text" (JSNumber 0) (JSString "bye")]
           (mkField "radio" (JSNumber (-1)) (JSString "checked"))
           (-1)%float eq_refl eq_refl eq_refl).
Defined.

(** X16.  A date typed year-month-day in the viewer is burnt
    day/month/year: for the payload element [getNormalizedCoordinates]
    makes of the field, [injectField] makes, on the page it is injected
    on, exactly one call, [drawText] of day/month/year in the font it
    is given at size 10, two points right of the left edge of the
    normalized box and twelve points below its top edge.  The call
    draws the text, or throws what pdf-lib rejects the text or the
    position with, and [injectField] with it. *)
Theorem date_is_burnt_day_first :
  forall (rt : Runtime) (pdfDoc : PDFDocument) (page : PageRef)
         (p : PDFPage) (font : PDFFont) (field : App.PlacedField)
         (year month day : string),
    App.type field = JSString "date" ->
    App.value field = JSString (year ++ "-" ++ month ++ "-" ++ day) ->
    hasChar "-" year = false -> hasChar "-" month = false ->
    hasChar "-" day = false ->
    nth_error (docPages pdfDoc) page = Some p ->
    let box := normalizeCoordinates (App.fractionsOf (App.box field))
                 (pageWidth p) (pageHeight p) in
    (let* payload := App.getNormalizedCoordinates field in
     injectField rt pdfDoc (Some page) payload font)
    = drawCall rt pdfDoc page
        (DrawText (JSString (day ++ "/" ++ month ++ "/" ++ year))
           (x box + 2) (y box + height box - 10 - 2) 10 font
           (rgb 0 0 0)).
Proof.
  intros rt pdfDoc page p font field year month day Htype Hvalue Hy Hm Hd
         Hp box.
  rewrite (date_payload field year month day Htype Hvalue Hy Hm Hd).
  cbn [bind]. unfold injectField.
  rewrite (getSize_live _ _ _ Hp).
  cbn [bind fst snd type value fractions strictEqString ToBoolean].
  change (day ++ "/" ++ month ++ "/" ++ year)%string
    with (day ++ String "/" (month ++ "/" ++ year))%string.
  rewrite append_nonempty. reflexivity.
Qed.

(** X16: the ninth of March on the sample page. *)
Lemma date_is_burnt_day_first_witness :
  (let* payload :=
     App.getNormalizedCoordinates
       {| App.id := "field-1"; App.type := JSString "date";
          App.pageNumber := JSNumber 0;
          App.value := JSString ("2024" ++ "-" ++ "03" ++ "-" ++ "09");
          App.box := {| x := 10; y := 20; width := 100;
                        height := 30 |}%float |} in
   injectField sampleRuntime sampleDoc (Some O) payload sampleFont)
  = Ok (draw sampleDoc O
          (DrawText (JSString ("09" ++ "/" ++ "03" ++ "/" ++ "2024"))
             (x (normalizeCoordinates
                   (App.fractionsOf
                      {| x := 10; y := 20; width := 100; height := 30 |}%float)
                   595%float 842%float) + 2)
             (y (normalizeCoordinates
                   (App.fractionsOf
                      {| x := 10; y := 20; width := 100; height := 30 |}%float)
                   595%float 842%float)
              + height (normalizeCoordinates
                          (App.fractionsOf
                             {| x := 10; y := 20; width := 100;
                                height := 30 |}%float)
                          595%float 842%float)
              - 10 - 2)
             10 sampleFont (rgb 0 0 0))).
Proof.
  exact (date_is_burnt_day_first sampleRuntime sampleDoc O blankA4 sampleFont
           {| App.id := "field-1"; App.type := JSString "date";
              App.pageNumber := JSNumber 0;
              App.value := JSString ("2024" ++ "-" ++ "03" ++ "-" ++ "09");
              App.box := {| x := 10; y := 20; width := 100;
                            height := 30 |}%float |}
           "2024"%string "03"%string "09"%string
           eq_refl eq_refl eq_refl eq_refl eq_refl eq_refl).
Defined.
